(** * Verification of the AdmiralBet feed collector (LiveFeedService,
    PreGamesService, DataStorageService, RedisService).

    Shallow embedding of the TypeScript services: a service's mutable
    [config] becomes an explicit state record, a [Map<number, match>] a
    [gmap Z], a [ReadableOdds] object a [gmap string], and every method that
    mutates [this.config] a function from the old state to the new one.
    Numbers that the code only copies (odd values, pick codes, ids) are
    modelled as [Z]. *)

From Stdlib Require Import ZArith Bool Lia Ascii.
From stdpp Require Import base gmap list strings.

Open Scope Z_scope.

(* ------------------------------------------------------------------ *)
(** ** JavaScript string helpers *)

Module Js.

(** [String.prototype.toLowerCase] on the ASCII range. *)
Definition lower_ascii (c : Ascii.ascii) : Ascii.ascii :=
  let n := Ascii.nat_of_ascii c in
  if (65 <=? n)%nat && (n <=? 90)%nat then Ascii.ascii_of_nat (n + 32) else c.

Fixpoint toLowerCase (s : string) : string :=
  match s with
  | EmptyString => EmptyString
  | String c s' => String (lower_ascii c) (toLowerCase s')
  end.

Fixpoint startsWith (s pre : string) : bool :=
  match pre, s with
  | EmptyString, _ => true
  | String c pre', String d s' => Ascii.eqb c d && startsWith s' pre'
  | String _ _, EmptyString => false
  end.

(** [String.prototype.includes]. *)
Fixpoint includes (s sub : string) : bool :=
  startsWith s sub ||
  match s with
  | EmptyString => false
  | String _ s' => includes s' sub
  end.

(** Truthiness of a [string | null | undefined] value. *)
Definition truthy (s : option string) : bool :=
  match s with
  | Some EmptyString | None => false
  | Some _ => true
  end.

(** [a || b] on an optional string. *)
Definition or_default (s : option string) (d : string) : string :=
  match s with
  | Some EmptyString | None => d
  | Some v => v
  end.

Definition in_list (x : Z) (l : list Z) : bool := existsb (Z.eqb x) l.

Definition in_slist (x : string) (l : list string) : bool :=
  existsb (String.eqb x) l.

End Js.

(* ------------------------------------------------------------------ *)
(** ** Canonical odds ([ReadableOdds], types/index.ts) *)

Module Odds.

(** [{ oddValue, betPickCode }]. *)
Record pick := mkPick { oddValue : Z; betPickCode : Z }.

(** The value stored under a canonical key: a JavaScript object that may
    carry [oddValue]/[betPickCode] (a single market) and line-keyed
    sub-entries (a totals market such as [fullTimeUnderTotal]). *)
Record entry := mkEntry { e_pick : option pick; e_lines : gmap string pick }.

Abbreviation odds := (gmap string entry).

(** [odds.key = { oddValue, betPickCode }]: the whole entry is replaced. *)
Definition set_single (k : string) (p : pick) (o : odds) : odds :=
  <[k := mkEntry (Some p) ∅]> o.

(** [if (!odds.key) odds.key = {}; odds.key[sub] = { ... }]. *)
Definition set_line (k sub : string) (p : pick) (o : odds) : odds :=
  match o !! k with
  | Some e => <[k := mkEntry (e_pick e) (<[sub := p]> (e_lines e))]> o
  | None => <[k := mkEntry None {[sub := p]}]> o
  end.

(** An entry is present under a key, and the line sub-key is present. *)
Definition has_key (o : odds) (k : string) : bool := bool_decide (is_Some (o !! k)).

Definition has_line (o : odds) (k sub : string) : bool :=
  match o !! k with
  | Some e => bool_decide (is_Some (e_lines e !! sub))
  | None => false
  end.

End Odds.

(* ------------------------------------------------------------------ *)
(** ** Collector session state ([LiveFeedConfig] / [PreGameConfig]) *)

Module Session.

(** A stored match ([ProcessedLiveFeedMatch] / [ProcessedPreGameMatch]).
    The fields computed by string parsing (team names split from the event
    name, the kick-off time parsed from [dateTime]) and the live-only score
    fields are left out: no property reads them. *)
Record Match := mkMatch {
  m_id : Z;
  m_league : string;
  m_sport : string;
  m_status : Z;
  m_blocked : bool;
  m_favourite : bool;
  m_odds : Odds.odds
}.

Record Config := mkConfig {
  isRunning : bool;
  collectionInterval : Z;
  selectedSport : string;
  matches : gmap Z Match;
  leagues : gset string
}.

Inductive start_error :=
  | InvalidSport (sport : string)
  | InvalidInterval (interval : Z).

Definition ALLOWED_SPORTS : list string := ["B"; "T"; "S"]%string.

(** [startLiveFeed] / [startPreGames] up to their first [await]: the
    returned error is the [Error] thrown by the validation, and the state
    is the service's [config] afterwards. The two services differ only in
    the allow-list of intervals. *)
Definition start (allowed : list Z) (c : Config) (collectionInterval : Z)
    (sport : string) : Config * option start_error :=
  if isRunning c then (c, None)
  else if negb (Js.in_slist sport ALLOWED_SPORTS) then (c, Some (InvalidSport sport))
  else if negb (Js.in_list collectionInterval allowed)
  then (c, Some (InvalidInterval collectionInterval))
  else (mkConfig true collectionInterval sport ∅ ∅, None).

Definition LIVE_INTERVALS : list Z := [1; 15; 30; 60; 120].
Definition PREGAMES_INTERVALS : list Z := [120].

Definition startLiveFeed := start LIVE_INTERVALS.
Definition startPreGames := start PREGAMES_INTERVALS.

(** [startCacheUpdates] of LiveFeedService: the [setInterval] period in
    milliseconds; an existing timer is kept. *)
Definition live_cacheUpdateInterval (collectionInterval : Z) : Z :=
  if collectionInterval =? 1 then 1000
  else if collectionInterval <=? 15 then 2000
  else if collectionInterval <=? 30 then 5000
  else 10000.

Definition live_startCacheUpdates (timer : option Z) (c : Config) : option Z :=
  match timer with
  | Some t => Some t
  | None => Some (live_cacheUpdateInterval (collectionInterval c))
  end.

(** [startCacheUpdates] of PreGamesService: a fixed 5000 ms period. *)
Definition pregames_startCacheUpdates (timer : option Z) (c : Config) : option Z :=
  match timer with
  | Some t => Some t
  | None => Some 5000
  end.

(** The poll period the spec gives as a function of the interval. *)
Definition spec_poll_period (collectionInterval : Z) : Z :=
  if collectionInterval =? 1 then 1000
  else if collectionInterval <=? 15 then 2000
  else if collectionInterval <=? 30 then 5000
  else 10000.

End Session.

(* ------------------------------------------------------------------ *)
(** ** Raw bet records and the two normalisation paths *)

Module Norm.
Import Odds.

(** [AdmiralBetBetOutcome]: the live phase reads the special value from
    [sBV], the pre-games phase from [sbv]. *)
Record Outcome := mkOutcome {
  o_name : string;
  o_odd : Z;
  o_betTypeOutcomeId : Z;
  o_sBV : option string;
  o_sbv : option string
}.

(** [AdmiralBetBet]. *)
Record Bet := mkBet {
  b_betTypeId : Z;
  b_betTypeName : string;
  b_betOutcomes : list Outcome
}.

Definition lc (s : string) (sub : string) : bool := Js.includes (Js.toLowerCase s) sub.

(** *** LiveFeedService.processBetOutcomes (one outcome) *)
Definition live_outcome (sport : string) (bet : Bet) (outcome : Outcome)
    (o : odds) : odds :=
  let betTypeId := b_betTypeId bet in
  let outcomeName := o_name outcome in
  let specialValue := o_sBV outcome in
  let p := mkPick (o_odd outcome) (o_betTypeOutcomeId outcome) in
  let sv := Js.or_default specialValue "" in
  if String.eqb sport "S" then
    if betTypeId =? 56 then
      if String.eqb outcomeName "1" then set_single "fullTimeResultHomeWin" p o
      else if String.eqb outcomeName "X" then set_single "fullTimeResultDraw" p o
      else if String.eqb outcomeName "2" then set_single "fullTimeResultAwayWin" p o
      else o
    else if betTypeId =? 6 then
      if String.eqb outcomeName "1" then set_single "firstHalfResultHomeWin" p o
      else if String.eqb outcomeName "X" then set_single "firstHalfResultDraw" p o
      else if String.eqb outcomeName "2" then set_single "firstHalfResultAwayWin" p o
      else o
    else if betTypeId =? 22 then
      if Js.truthy specialValue then
        if lc outcomeName "manje" then set_line "fullTimeUnderTotal" ("FT_" ++ sv) p o
        else if lc outcomeName "vise" then set_line "fullTimeOverTotal" ("FT_" ++ sv) p o
        else o
      else o
    else if String.eqb (b_betTypeName bet) "1.pol - Ukupno" then
      if Js.truthy specialValue then
        if lc outcomeName "manje" then set_line "firstHalfUnderTotal" ("1H_" ++ sv) p o
        else if lc outcomeName "vise" then set_line "firstHalfOverTotal" ("1H_" ++ sv) p o
        else o
      else o
    else if String.eqb (b_betTypeName bet) "Oba tima daju gol" then
      if String.eqb outcomeName "GG" || lc outcomeName "da" then
        set_single "bothTeamsToScore" p o
      else if String.eqb outcomeName "NG" || lc outcomeName "ne" then
        set_single "oneTeamNotToScore" p o
      else o
    else o
  else if String.eqb sport "B" then
    if betTypeId =? 56 then
      if String.eqb outcomeName "1" then set_single "basketballFTOT1" p o
      else if String.eqb outcomeName "2" then set_single "basketballFTOT2" p o
      else o
    else o
  else if String.eqb sport "T" then
    if betTypeId =? 56 then
      if String.eqb outcomeName "1" then set_single "tennisHomeWins" p o
      else if String.eqb outcomeName "2" then set_single "tennisAwayWins" p o
      else o
    else if String.eqb (b_betTypeName bet) "Pobednik seta" then
      if bool_decide (specialValue = Some "1") then
        if String.eqb outcomeName "1" then set_single "tennisHomeWinsFirstSet" p o
        else if String.eqb outcomeName "2" then set_single "tennisAwayWinsFirstSet" p o
        else o
      else if bool_decide (specialValue = Some "2") then
        if String.eqb outcomeName "1" then set_single "tennisHomeWinsSecondSet" p o
        else if String.eqb outcomeName "2" then set_single "tennisAwayWinsSecondSet" p o
        else o
      else o
    else o
  else o.

Definition live_processBetOutcomes (sport : string) (bet : Bet) (o : odds) : odds :=
  fold_left (fun acc outcome => live_outcome sport bet outcome acc) (b_betOutcomes bet) o.

(** The [for (const bet of event.bets)] loop of [processLiveEvent]. *)
Definition live_normalize (sport : string) (bets : list Bet) : odds :=
  fold_left (fun acc bet => live_processBetOutcomes sport bet acc) bets ∅.

(** *** LiveFeedService.updateMatchOdds (delta path); [matchSport] is
    [match.sport]. *)
Definition live_updateMatchOdds (matchSport betTypeName outcomeName : string)
    (specialValue : option string) (newValue betTypeOutcomeId : Z)
    (o : odds) : odds :=
  let p := mkPick newValue betTypeOutcomeId in
  let sv := Js.or_default specialValue "" in
  if String.eqb matchSport "B" then
    if String.eqb betTypeName "Pobednik" then
      if String.eqb outcomeName "1" then set_single "basketballFTOT1" p o
      else if String.eqb outcomeName "2" then set_single "basketballFTOT2" p o
      else o
    else o
  else if String.eqb matchSport "T" then
    if String.eqb betTypeName "Pobednik" then
      if String.eqb outcomeName "1" then set_single "tennisHomeWins" p o
      else if String.eqb outcomeName "2" then set_single "tennisAwayWins" p o
      else o
    else if String.eqb betTypeName "Pobednik seta" then
      if bool_decide (specialValue = Some "1") then
        if String.eqb outcomeName "1" then set_single "tennisHomeWinsFirstSet" p o
        else if String.eqb outcomeName "2" then set_single "tennisAwayWinsFirstSet" p o
        else o
      else if bool_decide (specialValue = Some "2") then
        if String.eqb outcomeName "1" then set_single "tennisHomeWinsSecondSet" p o
        else if String.eqb outcomeName "2" then set_single "tennisAwayWinsSecondSet" p o
        else o
      else o
    else o
  else if String.eqb matchSport "S" then
    if String.eqb betTypeName "Konacan ishod" then
      if String.eqb outcomeName "1" then set_single "fullTimeResultHomeWin" p o
      else if String.eqb outcomeName "X" then set_single "fullTimeResultDraw" p o
      else if String.eqb outcomeName "2" then set_single "fullTimeResultAwayWin" p o
      else o
    else if String.eqb betTypeName "1.pol - 1X2" then
      if String.eqb outcomeName "1" then set_single "firstHalfResultHomeWin" p o
      else if String.eqb outcomeName "X" then set_single "firstHalfResultDraw" p o
      else if String.eqb outcomeName "2" then set_single "firstHalfResultAwayWin" p o
      else o
    else if String.eqb betTypeName "Ukupno golova" then
      if Js.truthy specialValue then
        if lc outcomeName "manje" then set_line "fullTimeUnderTotal" ("FT_" ++ sv) p o
        else if lc outcomeName "vise" then set_line "fullTimeOverTotal" ("FT_" ++ sv) p o
        else o
      else o
    else if String.eqb betTypeName "1.p - Ukupno" then
      if Js.truthy specialValue then
        if lc outcomeName "manje" then set_line "firstHalfUnderTotal" ("1H_" ++ sv) p o
        else if lc outcomeName "vise" then set_line "firstHalfOverTotal" ("1H_" ++ sv) p o
        else o
      else o
    else if String.eqb betTypeName "Oba tima daju gol" then
      if String.eqb outcomeName "GG" || lc outcomeName "da" then
        set_single "bothTeamsToScore" p o
      else if String.eqb outcomeName "NG" || lc outcomeName "ne" then
        set_single "oneTeamNotToScore" p o
      else o
    else o
  else o.

(** *** PreGamesService.processAdmiralBetFootballEvent (one outcome of one
    bet); the per-bet [if] blocks test distinct names, so at most one
    applies. *)
Definition pre_football_outcome (bet : Bet) (outcome : Outcome) (o : odds) : odds :=
  let n := b_betTypeName bet in
  let nm := o_name outcome in
  let name := Js.toLowerCase nm in
  let p := mkPick (o_odd outcome) (o_betTypeOutcomeId outcome) in
  if String.eqb n "Konacan ishod" then
    if String.eqb nm "1" || lc nm "home" then set_single "fullTimeResultHomeWin" p o
    else if String.eqb nm "X" || lc nm "draw" then set_single "fullTimeResultDraw" p o
    else if String.eqb nm "2" || lc nm "away" then set_single "fullTimeResultAwayWin" p o
    else o
  else if String.eqb n "1.pol - 1X2" then
    if String.eqb nm "1" || lc nm "home" then set_single "firstHalfResultHomeWin" p o
    else if String.eqb nm "X" || lc nm "draw" then set_single "firstHalfResultDraw" p o
    else if String.eqb nm "2" || lc nm "away" then set_single "firstHalfResultAwayWin" p o
    else o
  else if String.eqb n "Broj golova" then
    if Js.includes name "1-2" then set_single "oneToTwoGoals" p o
    else if Js.includes name "1-3" then set_single "oneToThreeGoals" p o
    else if Js.includes name "1-4" then set_single "oneToFourGoals" p o
    else if Js.includes name "2-3" then set_single "twoOrThreeGoals" p o
    else if Js.includes name "2-4" then set_single "twoToFourGoals" p o
    else if Js.includes name "3-4" then set_single "threeToFourGoals" p o
    else if Js.includes name "3-5" then set_single "threeToFiveGoals" p o
    else if Js.includes name "4-5" then set_single "fourToFiveGoals" p o
    else if Js.includes name "4-6" then set_single "fourToSixGoals" p o
    else if Js.includes name "0-2" then set_single "zeroToTwoGoals" p o
    else o
  else if String.eqb n "Oba tima daju gol" then
    if String.eqb nm "GG" || lc nm "da" then set_single "bothTeamsToScore" p o
    else if String.eqb nm "NG" || lc nm "ne" then set_single "oneTeamNotToScore" p o
    else o
  else if String.eqb n "1.pol - Ukupno golova" then
    let specialValue := Js.or_default (o_sbv outcome) "0.5" in
    if Js.includes name "manje" then set_line "firstHalfUnderTotal" specialValue p o
    else if Js.includes name "vise" then set_line "firstHalfOverTotal" specialValue p o
    else o
  else if String.eqb n "Ukupno golova" then
    let specialValue := Js.or_default (o_sbv outcome) "2.5" in
    if Js.includes name "manje" then set_line "fullTimeUnderTotal" specialValue p o
    else if Js.includes name "vise" then set_line "fullTimeOverTotal" specialValue p o
    else o
  else o.

(** *** PreGamesService.processAdmiralBetEvent (basketball). *)
Definition pre_basketball_outcome (bet : Bet) (outcome : Outcome) (o : odds) : odds :=
  let nm := o_name outcome in
  let p := mkPick (o_odd outcome) (o_betTypeOutcomeId outcome) in
  if String.eqb (b_betTypeName bet) "Pobednik" then
    if String.eqb nm "1" || lc nm "home" then set_single "basketballFTOT1" p o
    else if String.eqb nm "2" || lc nm "away" then set_single "basketballFTOT2" p o
    else o
  else o.

(** *** PreGamesService.processAdmiralBetTennisEvent. *)
Definition pre_tennis_outcome (bet : Bet) (outcome : Outcome) (o : odds) : odds :=
  let n := b_betTypeName bet in
  let nm := o_name outcome in
  let p := mkPick (o_odd outcome) (o_betTypeOutcomeId outcome) in
  if String.eqb n "Pobednik" then
    if String.eqb nm "1" || lc nm "home" then set_single "tennisHomeWins" p o
    else if String.eqb nm "2" || lc nm "away" then set_single "tennisAwayWins" p o
    else o
  else if String.eqb n "1.set - Pobednik" then
    if String.eqb nm "1" || lc nm "home" then set_single "tennisHomeWinsFirstSet" p o
    else if String.eqb nm "2" || lc nm "away" then set_single "tennisAwayWinsFirstSet" p o
    else o
  else o.

(** The outcome handler of the pre-games processor for a stored sport. *)
Definition pre_outcome (sport : string) : Bet -> Outcome -> odds -> odds :=
  if String.eqb sport "S" then pre_football_outcome
  else if String.eqb sport "B" then pre_basketball_outcome
  else if String.eqb sport "T" then pre_tennis_outcome
  else fun _ _ o => o.

(** The [for (const bet of ...) for (const outcome of bet.betOutcomes)]
    loops of the three pre-games processors. *)
Definition pre_normalize (sport : string) (bets : list Bet) : odds :=
  fold_left (fun acc bet =>
    fold_left (fun acc' outcome => pre_outcome sport bet outcome acc')
      (b_betOutcomes bet) acc) bets ∅.

(** *** PreGamesService.updateMatchOdds (delta path). *)
Definition pre_updateMatchOdds (matchSport betTypeName outcomeName : string)
    (specialValue : option string) (newValue betTypeOutcomeId : Z)
    (o : odds) : odds :=
  let p := mkPick newValue betTypeOutcomeId in
  let name := Js.toLowerCase outcomeName in
  let sv := Js.or_default specialValue "" in
  if String.eqb matchSport "B" then
    if String.eqb betTypeName "Pobednik" then
      if String.eqb outcomeName "1" then set_single "basketballFTOT1" p o
      else if String.eqb outcomeName "2" then set_single "basketballFTOT2" p o
      else o
    else o
  else if String.eqb matchSport "T" then
    if String.eqb betTypeName "Pobednik" then
      if String.eqb outcomeName "1" then set_single "tennisHomeWins" p o
      else if String.eqb outcomeName "2" then set_single "tennisAwayWins" p o
      else o
    else if String.eqb betTypeName "1.set - Pobednik" then
      if String.eqb outcomeName "1" then set_single "tennisHomeWinsFirstSet" p o
      else if String.eqb outcomeName "2" then set_single "tennisAwayWinsFirstSet" p o
      else o
    else o
  else if String.eqb matchSport "S" then
    if String.eqb betTypeName "Konacan ishod" then
      if String.eqb outcomeName "1" then set_single "fullTimeResultHomeWin" p o
      else if String.eqb outcomeName "X" then set_single "fullTimeResultDraw" p o
      else if String.eqb outcomeName "2" then set_single "fullTimeResultAwayWin" p o
      else o
    else if String.eqb betTypeName "1.pol - 1X2" then
      if String.eqb outcomeName "1" then set_single "firstHalfResultHomeWin" p o
      else if String.eqb outcomeName "X" then set_single "firstHalfResultDraw" p o
      else if String.eqb outcomeName "2" then set_single "firstHalfResultAwayWin" p o
      else o
    else if String.eqb betTypeName "Broj golova" then
      if Js.includes name "1-2" then set_single "oneToTwoGoals" p o
      else if Js.includes name "1-3" then set_single "oneToThreeGoals" p o
      else if Js.includes name "1-4" then set_single "oneToFourGoals" p o
      else if Js.includes name "2-3" then set_single "twoOrThreeGoals" p o
      else if Js.includes name "2-4" then set_single "twoToFourGoals" p o
      else if Js.includes name "3-4" then set_single "threeToFourGoals" p o
      else if Js.includes name "3-5" then set_single "threeToFiveGoals" p o
      else if Js.includes name "4-5" then set_single "fourToFiveGoals" p o
      else if Js.includes name "4-6" then set_single "fourToSixGoals" p o
      else if Js.includes name "0-2" then set_single "zeroToTwoGoals" p o
      else o
    else if String.eqb betTypeName "Oba tima daju gol" then
      if String.eqb outcomeName "GG" || lc outcomeName "da" then
        set_single "bothTeamsToScore" p o
      else if String.eqb outcomeName "NG" || lc outcomeName "ne" then
        set_single "oneTeamNotToScore" p o
      else o
    else if String.eqb betTypeName "1.pol - Ukupno golova" then
      if Js.truthy specialValue then
        if lc outcomeName "manje" then set_line "firstHalfUnderTotal" sv p o
        else if lc outcomeName "vise" then set_line "firstHalfOverTotal" sv p o
        else o
      else o
    else if String.eqb betTypeName "Ukupno golova" then
      if Js.truthy specialValue then
        if lc outcomeName "manje" then set_line "fullTimeUnderTotal" sv p o
        else if lc outcomeName "vise" then set_line "fullTimeOverTotal" sv p o
        else o
      else o
    else o
  else o.

End Norm.

(* ------------------------------------------------------------------ *)
(** ** Match store operations of the two collectors *)

Module Store.
Import Odds Norm Session.

Definition set_odds (m : Match) (o : odds) : Match :=
  mkMatch (m_id m) (m_league m) (m_sport m) (m_status m) (m_blocked m)
    (m_favourite m) o.

Definition set_matches (c : Config) (ms : gmap Z Match) : Config :=
  mkConfig (isRunning c) (collectionInterval c) (selectedSport c) ms (leagues c).

(** [{ 1: 'S', 2: 'B', 3: 'T' }[sportId]]. *)
Definition sportMapping (sportId : Z) : option string :=
  if sportId =? 1 then Some "S"%string
  else if sportId =? 2 then Some "B"%string
  else if sportId =? 3 then Some "T"%string
  else None.

Definition sport_selected (c : Config) (sportId : Z) : bool :=
  bool_decide (sportMapping sportId = Some (selectedSport c)).

(** The event fields the processors read ([LiveFeedEvent] /
    [AdmiralBetEvent]). *)
Record Event := mkEvent {
  ev_id : Z;
  ev_competitionName : string;
  ev_status : Z;
  ev_isPlayable : bool;
  ev_isTopOffer : bool;
  ev_bets : list Bet
}.

(** [LiveFeedService.processLiveEvent]: normalises [event.bets] with the
    selected sport and stores the new record with [matches.set]. *)
Definition live_processLiveEvent (c : Config) (ev : Event) : Config :=
  let sport := selectedSport c in
  let m := mkMatch (ev_id ev) (ev_competitionName ev) sport (ev_status ev)
             (negb (ev_isPlayable ev)) (ev_isTopOffer ev)
             (live_normalize sport (ev_bets ev)) in
  set_matches c (<[ev_id ev := m]> (matches c)).

(** [PreGamesService.processAdmiralBetFootballEvent], [processAdmiralBetEvent]
    (basketball) and [processAdmiralBetTennisEvent]: the bets of the
    detailed-odds payload when it has some, else [event.bets]. *)
Definition pre_processEvent (sport : string) (c : Config) (ev : Event)
    (detailedOdds : option (list Bet)) : Config :=
  let bets := match detailedOdds with Some bs => bs | None => ev_bets ev end in
  let m := mkMatch (ev_id ev) (ev_competitionName ev) sport (ev_status ev)
             (negb (ev_isPlayable ev)) (ev_isTopOffer ev)
             (pre_normalize sport bets) in
  set_matches c (<[ev_id ev := m]> (matches c)).

(** [CacheChangedEvent]: positional arrays. *)
Record ChangedEvent := mkChangedEvent {
  ce_id : list Z; ce_n : list Z; ce_b : list Z; ce_t : list string
}.

Definition ce_valid (e : ChangedEvent) : bool :=
  (4 <=? length (ce_id e))%nat && (7 <=? length (ce_n e))%nat &&
  (6 <=? length (ce_b e))%nat && (7 <=? length (ce_t e))%nat.

Definition zat (l : list Z) (i : nat) : Z := nth i l 0.
Definition sat (l : list string) (i : nat) : string := nth i l ""%string.

(** The event object both services build from a changed event; its
    [bets] is the empty array. *)
Definition event_of_changed (e : ChangedEvent) : Event :=
  mkEvent (zat (ce_id e) 0) (sat (ce_t e) 2) (zat (ce_n e) 0)
    (zat (ce_b e) 1 =? 1) (zat (ce_b e) 3 =? 1) [].

(** The detailed-odds endpoint [betsAndGroups/sport/region/competition/event]:
    [Some bets] when the response carries a [bets] array, [None] when the
    request failed or the payload has none. *)
Definition DetailedOddsApi := Z -> Z -> Z -> Z -> option (list Bet).

(** One iteration of [LiveFeedService.processChangedEvents]. For a new
    event the detailed odds are fetched ([detailedOdds]), then the event
    built from the positional record, whose [bets] is [[]], is processed:
    the fetched payload is not used afterwards. *)
Definition live_changedEvent (fetch : DetailedOddsApi) (c : Config)
    (e : ChangedEvent) : Config :=
  if negb (ce_valid e) then c else
  let eventId := zat (ce_id e) 0 in
  let sportId := zat (ce_id e) 1 in
  let regionId := zat (ce_id e) 2 in
  let competitionId := zat (ce_id e) 3 in
  if negb (sport_selected c sportId) then c
  else if bool_decide (is_Some (matches c !! eventId)) then c
  else
    let detailedOdds := fetch sportId regionId competitionId eventId in
    let _ := detailedOdds in
    live_processLiveEvent c (event_of_changed e).

Definition live_processChangedEvents (fetch : DetailedOddsApi) (c : Config)
    (es : list ChangedEvent) : Config :=
  fold_left (live_changedEvent fetch) es c.

(** The in-place refresh of an event already stored (pre-games). *)
Definition pre_patch (m : Match) (e : ChangedEvent) : Match :=
  let newCompetitionName := sat (ce_t e) 2 in
  let league :=
    if negb (String.eqb newCompetitionName "") &&
       negb (String.eqb newCompetitionName (m_league m))
    then newCompetitionName else m_league m in
  mkMatch (m_id m) league (m_sport m) (zat (ce_n e) 0)
    (negb (zat (ce_b e) 1 =? 1)) (zat (ce_b e) 3 =? 1) (m_odds m).

(** One iteration of [PreGamesService.processChangedEvents]. *)
Definition pre_changedEvent (fetch : DetailedOddsApi) (c : Config)
    (e : ChangedEvent) : Config :=
  if negb (ce_valid e) then c else
  let eventId := zat (ce_id e) 0 in
  let sportId := zat (ce_id e) 1 in
  let regionId := zat (ce_id e) 2 in
  let competitionId := zat (ce_id e) 3 in
  if negb (sport_selected c sportId) then c
  else match matches c !! eventId with
  | None =>
      let detailedOdds := fetch sportId regionId competitionId eventId in
      let ev := event_of_changed e in
      if sportId =? 1 then pre_processEvent "S" c ev detailedOdds
      else if sportId =? 2 then pre_processEvent "B" c ev detailedOdds
      else if sportId =? 3 then pre_processEvent "T" c ev detailedOdds
      else c
  | Some m => set_matches c (<[eventId := pre_patch m e]> (matches c))
  end.

Definition pre_processChangedEvents (fetch : DetailedOddsApi) (c : Config)
    (es : list ChangedEvent) : Config :=
  fold_left (pre_changedEvent fetch) es c.

(** [CacheChangedBetOutcome]: positional arrays. *)
Record ChangedOutcome := mkChangedOutcome {
  co_id : list Z; co_n : list Z; co_t : list string
}.

Definition co_valid (r : ChangedOutcome) : bool :=
  (5 <=? length (co_id r))%nat && (3 <=? length (co_n r))%nat.

(** [outcome.t[2] || null]. *)
Definition co_specialValue (r : ChangedOutcome) : option string :=
  match nth_error (co_t r) 2 with
  | Some EmptyString | None => None
  | Some s => Some s
  end.

(** The signature shared by the two [updateMatchOdds]. *)
Definition Updater :=
  string -> string -> string -> option string -> Z -> Z -> odds -> odds.

(** One iteration of [processChangedBetOutcomes]; the two services run the
    same loop with their own [updateMatchOdds]. *)
Definition changedOutcome (upd : Updater) (c : Config) (r : ChangedOutcome) : Config :=
  if negb (co_valid r) then c else
  let eventId := zat (co_id r) 4 in
  let sportId := zat (co_id r) 1 in
  let betTypeOutcomeId := zat (co_n r) 1 in
  let newValue := zat (co_n r) 2 in
  let betTypeName := sat (co_t r) 0 in
  let outcomeName := sat (co_t r) 1 in
  let specialValue := co_specialValue r in
  if negb (sport_selected c sportId) then c
  else match matches c !! eventId with
  | Some m =>
      let o := upd (m_sport m) betTypeName outcomeName specialValue newValue
                 betTypeOutcomeId (m_odds m) in
      set_matches c (<[eventId := set_odds m o]> (matches c))
  | None => c
  end.

Definition processChangedBetOutcomes (upd : Updater) (c : Config)
    (rs : list ChangedOutcome) : Config :=
  fold_left (changedOutcome upd) rs c.

Definition live_processChangedBetOutcomes := processChangedBetOutcomes live_updateMatchOdds.
Definition pre_processChangedBetOutcomes := processChangedBetOutcomes pre_updateMatchOdds.

End Store.

(* ------------------------------------------------------------------ *)
(** ** PreGamesService paginated event fetch *)

Module Paging.

(** The page source: [pageFetcher pageNumber] returns the events of the
    page, [[]] when the request failed (the fetcher catches its errors, so
    [Promise.allSettled] only ever sees fulfilled results). *)
Definition PageSource := nat -> list Z.

(** [estimateTotalPages]: 100 when the first page is full, else 1. *)
Definition estimateTotalPages (pages : PageSource) (topN : nat) : nat :=
  if (length (pages 0%nat) =? topN)%nat then 100%nat else 1%nat.

(** The [while (hasMoreData && currentPage < totalPages)] loop; returns the
    collected events and the page numbers requested, in order. [fuel]
    bounds the iterations; [None] means the loop did not finish within it
    (with [concurrency = 0] the source loop never ends). *)
Fixpoint batches (pages : PageSource) (totalPages concurrency : nat)
    (fuel currentPage : nat) (allEvents : list Z) (requested : list nat)
    : option (list Z * list nat) :=
  if (currentPage <? totalPages)%nat then
    match fuel with
    | O => None
    | S fuel' =>
        let batchSize := Nat.min concurrency (totalPages - currentPage) in
        let pageNumbers := seq currentPage batchSize in
        let batchResults := map pages pageNumbers in
        let allEvents' := allEvents ++ concat batchResults in
        let requested' := requested ++ pageNumbers in
        let foundEmptyPage := existsb (fun evs => (length evs =? 0)%nat) batchResults in
        if foundEmptyPage then Some (allEvents', requested')
        else batches pages totalPages concurrency fuel'
               (currentPage + batchSize) allEvents' requested'
    end
  else Some (allEvents, requested).

(** [fetchPagesConcurrently(sportId, totalPages, topN, concurrency)]. *)
Definition fetchPagesConcurrently (pages : PageSource) (totalPages concurrency : nat)
    : option (list Z * list nat) :=
  batches pages totalPages concurrency (S totalPages) 0 [] [].

(** [fetchAdmiralBet*Events]: the estimate, then the concurrent fetch. *)
Definition fetchEvents (pages : PageSource) (topN concurrency : nat)
    : option (list Z * list nat) :=
  fetchPagesConcurrently pages (estimateTotalPages pages topN) concurrency.

(** The page sequence [[p0, p1, [], p3]] followed by empty pages. *)
Definition four_pages (p0 p1 p3 : list Z) : PageSource :=
  fun k => match k with 0 => p0 | 1 => p1 | 3 => p3 | _ => [] end%nat.

End Paging.

(* ------------------------------------------------------------------ *)
(** ** Resume cursor of the stream bootstrap *)

Module Stream.

(** Modelled from the spec: the stream-ingestion client is not among the
    sources (only its declarations, [InitialStreamingResponse.endTimestamp]
    and [isInitialStreaming], are). "the end timestamp becomes the resume
    cursor for phase two, unless that timestamp is more than 300 seconds
    old, in which case the current wall-clock time is substituted".
    Times are in unix seconds. *)
Definition resume_cursor (now endTimestamp : Z) : Z :=
  if now - endTimestamp >? 300 then now else endTimestamp.

End Stream.

(* ------------------------------------------------------------------ *)
(** ** DataStorageService and RedisService *)

Module Storage.
Import Odds Session.

(** The hash [RedisService.saveMatches] writes for a match: the fields of
    [ProcessedMatch] it keeps that a collector's match has ([status],
    [blocked] and [favourite] are not among them), with [bets] as JSON. *)
Record RedisHash := mkRedisHash {
  h_id : Z; h_league : string; h_sport : string; h_odds : odds
}.

Definition hash_of (m : Match) : RedisHash :=
  mkRedisHash (m_id m) (m_league m) (m_sport m) (m_odds m).

(** [RedisService]: its two flags, the [<prefix>:index] set and the
    [<prefix>:<id>] hashes (keys expire after 24 hours; time is not
    modelled). *)
Record Redis := mkRedis {
  isConnected : bool;
  connectionFailed : bool;
  r_index : list Z;
  r_hashes : gmap Z RedisHash
}.

Definition isRedisConnected (r : Redis) : bool :=
  isConnected r && negb (connectionFailed r).

(** [RedisService.connect]; [clientConnects] is the outcome of
    [client.connect()] (its [connect] event sets [isConnected]). *)
Definition connect (clientConnects : bool) (r : Redis) : Redis * bool :=
  if connectionFailed r then (r, false)
  else if clientConnects then (mkRedis true false (r_index r) (r_hashes r), true)
  else (mkRedis (isConnected r) true (r_index r) (r_hashes r), false).

(** [sAdd(key, ids)]: a set, kept in insertion order; Redis rejects an
    [SADD] without members. *)
Definition sAdd (index ids : list Z) : option (list Z) :=
  match ids with
  | [] => None
  | _ => Some (fold_left (fun acc i => if Js.in_list i acc then acc else acc ++ [i]) ids index)
  end.

(** [RedisService.saveMatches] ([None]: it throws). *)
Definition saveMatches (ms : list Match) (r : Redis) : option Redis :=
  if connectionFailed r then None
  else if negb (isConnected r) then None
  else
    let hashes := fold_left (fun h m => <[m_id m := hash_of m]> h) ms (r_hashes r) in
    match sAdd (r_index r) (map m_id ms) with
    | None => None
    | Some index => Some (mkRedis (isConnected r) (connectionFailed r) index hashes)
    end.


(** A file: a parsed JSON document, of which only its [matches] field (if
    any) matters, or content [JSON.parse] rejects. *)
Inductive FileContent :=
  | Parsed (docMatches : option (list Match))
  | Unparsable.

Record DataStorage := mkDataStorage {
  redisService : Redis;
  storageType : string;
  redisAvailable : bool;
  filePath : string;       (* DATA_FILE_PATH or its default *)
  cwd : string;            (* process.cwd() *)
  files : gmap string FileContent
}.

Definition with_redis (s : DataStorage) (r : Redis) : DataStorage :=
  mkDataStorage r (storageType s) (redisAvailable s) (filePath s) (cwd s) (files s).

Definition with_files (s : DataStorage) (f : gmap string FileContent) : DataStorage :=
  mkDataStorage (redisService s) (storageType s) (redisAvailable s) (filePath s) (cwd s) f.

Definition DEFAULT_FILE_PATH : string := "data/football-live-feed-data.json".

(** *** Which file a path names

    [fs] resolves a relative path against [process.cwd()], and the file a
    path names is that of its normalised absolute form: empty and [.]
    segments are dropped and [..] removes the previous one ([..] at the root
    stays there). [files] is keyed by that form ([file_key]); symbolic links
    are not modelled and [cwd] is an absolute path. *)

(** The [/]-separated segments of a path. *)
Fixpoint segments (p : string) : list string :=
  match p with
  | EmptyString => [EmptyString]
  | String c p' =>
      let rest := segments p' in
      if Ascii.eqb c "/"%char then EmptyString :: rest
      else match rest with
           | seg :: tl => String c seg :: tl
           | [] => [String c EmptyString]
           end
  end.

(** One segment onto the stack of the directories above it (innermost
    first). *)
Definition push_segment (stack : list string) (seg : string) : list string :=
  if String.eqb seg "" || String.eqb seg "." then stack
  else if String.eqb seg ".." then tail stack
  else seg :: stack.

Definition normalize_abs (p : string) : string :=
  "/" ++ String.concat "/" (rev (fold_left push_segment (segments p) [])).

(** [path.resolve(cwd, p)]. *)
Definition resolve (cwd p : string) : string :=
  normalize_abs (if Js.startsWith p "/" then p else cwd ++ "/" ++ p).

(** [DataStorageService.initialize]. *)
Definition initialize (clientConnects : bool) (s : DataStorage) : DataStorage :=
  let (r, ok) := connect clientConnects (redisService s) in
  if ok then mkDataStorage r "redis" true (filePath s) (cwd s) (files s)
  else mkDataStorage r "file" false (filePath s) (cwd s) (files s).

Definition getStorageType (s : DataStorage) : string := storageType s.

(** The file the [fs] calls of the gateway reach for the path [p]. *)
Definition file_key (s : DataStorage) (p : string) : string := resolve (cwd s) p.

Definition use_redis (s : DataStorage) : bool :=
  redisAvailable s && isRedisConnected (redisService s).

(** [existingData.matches.findIndex(m => m.id === match.id)], then replace
    at that index or push. *)
Fixpoint upsert_by_id (m : Match) (l : list Match) : list Match :=
  match l with
  | [] => [m]
  | x :: l' => if m_id x =? m_id m then m :: l' else x :: upsert_by_id m l'
  end.

(** The read-merge-write of [saveToFile], [savePreGamesToFile] and
    [saveLiveFeedToFile] on the file [path] names. The [matches] array is
    only created inside the loop, so with no match and no array in the file
    the final [existingData.matches.length] throws ([None]). *)
Definition saveToPath (path : string) (ms : list Match) (s : DataStorage)
    : option DataStorage :=
  let existing :=
    match files s !! file_key s path with
    | Some (Parsed d) => d
    | _ => None
    end in
  let merged :=
    fold_left (fun acc m => Some (upsert_by_id m (default [] acc))) ms existing in
  match merged with
  | None => None
  | Some l => Some (with_files s (<[file_key s path := Parsed (Some l)]> (files s)))
  end.

Inductive Feed := Generic | LiveFeed | PreGames.

(** The path each save writes: [this.filePath] for [saveData], and
    [path.join(process.cwd(), 'data', ...)] for the two feed files. *)
Definition feed_path (f : Feed) (s : DataStorage) : string :=
  match f with
  | Generic => filePath s
  | LiveFeed => cwd s ++ "/data/live-feed-data.json"
  | PreGames => cwd s ++ "/data/pre-games-data.json"
  end.

Inductive Backend := FileBackend | RedisBackend.

(** [saveData] / [saveLiveFeedData] / [savePreGamesData]: the backend
    chosen, and the new state ([None]: the call throws). The metadata
    written next to the matches is not modelled. *)
Definition save (f : Feed) (ms : list Match) (s : DataStorage)
    : Backend * option DataStorage :=
  if use_redis s then
    (RedisBackend, option_map (with_redis s) (saveMatches ms (redisService s)))
  else (FileBackend, saveToPath (feed_path f s) ms s).



End Storage.

(* ================================================================== *)
(** * Invariant vocabulary *)

Module Inv.
Import Odds Norm Session.

(** The four totals keys, whose entries hold line sub-keys. *)
Definition is_line_key (k : string) : bool :=
  Js.in_slist k ["fullTimeUnderTotal"; "fullTimeOverTotal";
                 "firstHalfUnderTotal"; "firstHalfOverTotal"].

(** The possible effects of one single-field update on an odds object:
    nothing, a single-market key set, or a line sub-key of a totals key
    set. *)
Definition writes (o o' : odds) : Prop :=
  o' = o \/
  (exists k p, is_line_key k = false /\ o' = set_single k p o) \/
  (exists k sub p, is_line_key k = true /\ o' = set_line k sub p o).

(** [m'] still has every canonical key of [m], and every line sub-key of
    its totals keys. *)
Definition keeps (m m' : Match) : Prop :=
  (forall k, has_key (m_odds m) k = true -> has_key (m_odds m') k = true) /\
  (forall k sub, is_line_key k = true -> has_line (m_odds m) k sub = true ->
     has_line (m_odds m') k sub = true).

(** A live bet-type id and bet-type name that denote the same market for
    both live mappings (id-based in [processBetOutcomes], name-based in
    [updateMatchOdds]), and no first-half totals name. *)
Definition live_ids_agree (sport : string) (betTypeId : Z) (betTypeName : string) : bool :=
  if String.eqb sport "S" then
    Bool.eqb (betTypeId =? 56) (String.eqb betTypeName "Konacan ishod") &&
    Bool.eqb (betTypeId =? 6) (String.eqb betTypeName "1.pol - 1X2") &&
    Bool.eqb (betTypeId =? 22) (String.eqb betTypeName "Ukupno golova") &&
    negb (String.eqb betTypeName "1.pol - Ukupno") &&
    negb (String.eqb betTypeName "1.p - Ukupno")
  else if String.eqb sport "B" || String.eqb sport "T" then
    Bool.eqb (betTypeId =? 56) (String.eqb betTypeName "Pobednik")
  else true.

End Inv.

(* ================================================================== *)
(** * Sample inputs *)

Module Samples.
Import Odds Norm Session Store Storage.

(** A stored football match with a full-time home-win price. *)
Definition c2_match : Match :=
  mkMatch 1 "Liga" "S" 0 false false
    {["fullTimeResultHomeWin" := mkEntry (Some (mkPick 150 9)) ∅]}.

Definition c2_config : Config := mkConfig true 30 "S" {[1 := c2_match]} ∅.

(** A detailed-odds payload with one full-time-result bet. *)
Definition c5_bets : list Bet :=
  [mkBet 56 "Konacan ishod" [mkOutcome "1" 150 9 None None]].

Definition c5_fetch : DetailedOddsApi := fun _ _ _ _ => Some c5_bets.

(** A running football session with an empty store. *)
Definition c5_config : Config := mkConfig true 30 "S" ∅ ∅.

(** A changed event for event 100 (sport 1, region 5, competition 7). *)
Definition c5_event : ChangedEvent :=
  mkChangedEvent [100; 1; 5; 7] [0; 0; 0; 0; 0; 0; 0] [1; 1; 0; 0; 0; 0]
    ["64292"; "2025"; "Liga"; "A - B"; "AB"; ""; ""].

(** A fresh gateway: no file yet, the cache client not connected. *)
Definition c6_storage : DataStorage :=
  mkDataStorage (mkRedis false false [] ∅) "file" false DEFAULT_FILE_PATH "/app" ∅.





End Samples.

(* ================================================================== *)
(** * Service lifecycle (LiveFeedService, PreGamesService) *)

Module Service.
Import Js Odds Norm Session Store Paging Storage.

(** A service object: its [config], the [setInterval] handle of the delta
    poll (its period in milliseconds; [None] for [undefined]) and
    [lastDeltaCacheNumber] ([None] for [null]). *)
Record Svc := mkSvc {
  cfg : Config;
  cacheUpdateTimer : option Z;
  lastDeltaCacheNumber : option string
}.

(** The constructors: [new LiveFeedService()] and [new PreGamesService()]. *)
Definition live_init : Svc := mkSvc (mkConfig false 30 "S" ∅ ∅) None None.
Definition pre_init : Svc := mkSvc (mkConfig false 120 "B" ∅ ∅) None None.

(** [saveProcessedData]: nothing when the store is empty, else the values
    handed to [saveLiveFeedData] / [savePreGamesData] (as a list; the
    insertion order of the [Map] is not modelled). *)
Definition saveProcessedData (c : Config) : option (list Match) :=
  if (size (matches c) =? 0)%nat then None
  else Some (map snd (map_to_list (matches c))).

(** [stopLiveFeed] / [stopPreGames] (the same code): the new state and the
    snapshot saved. *)
Definition stop (s : Svc) : Svc * option (list Match) :=
  let c := cfg s in
  if negb (isRunning c) then (s, None)
  else
    let c' := mkConfig false (collectionInterval c) (selectedSport c)
                (matches c) (leagues c) in
    (mkSvc c' None None, saveProcessedData c').

(** The fields of [CacheChangesResponse] that [updateCacheChanges] reads;
    an absent array is [[]]. *)
Record CacheChangesResponse := mkCacheChangesResponse {
  maxDeltaCacheNumberAsString : option string;
  changedEvents : list ChangedEvent;
  changedBetOutcomes : list ChangedOutcome
}.

(** [updateCacheChanges] of either service, given its two processors.
    [resp] is [response.data]; [None] when it is falsy or the request
    failed (the error is caught). The saves of the processors are not
    modelled here. *)
Definition updateCacheChanges
    (processChangedEvents : Config -> list ChangedEvent -> Config)
    (processChangedBetOutcomes : Config -> list ChangedOutcome -> Config)
    (s : Svc) (resp : option CacheChangesResponse) : Svc :=
  if negb (isRunning (cfg s)) then s
  else match resp with
  | None => s
  | Some r =>
      let tok := if truthy (maxDeltaCacheNumberAsString r)
                 then maxDeltaCacheNumberAsString r
                 else lastDeltaCacheNumber s in
      let c1 := if (0 <? length (changedEvents r))%nat
                then processChangedEvents (cfg s) (changedEvents r) else cfg s in
      let c2 := if (0 <? length (changedBetOutcomes r))%nat
                then processChangedBetOutcomes c1 (changedBetOutcomes r) else c1 in
      mkSvc c2 (cacheUpdateTimer s) tok
  end.

Definition live_updateCacheChanges (fetch : DetailedOddsApi) :=
  updateCacheChanges (live_processChangedEvents fetch) live_processChangedBetOutcomes.

Definition pre_updateCacheChanges (fetch : DetailedOddsApi) :=
  updateCacheChanges (pre_processChangedEvents fetch) pre_processChangedBetOutcomes.

(** *** LiveFeedService phase one *)

(** [LiveFeedSport] / [LiveFeedRegion] / [LiveFeedCompetition] and the
    tree's event, which carries [isLive] besides the event fields. *)
Record LiveTreeEvent := mkLiveTreeEvent { lte_isLive : bool; lte_event : Event }.
Record LiveFeedCompetition := mkLiveFeedCompetition { lfc_events : list LiveTreeEvent }.
Record LiveFeedRegion := mkLiveFeedRegion { lfr_competitions : list LiveFeedCompetition }.
Record LiveFeedSport := mkLiveFeedSport { lfs_id : Z; lfs_regions : list LiveFeedRegion }.

Definition live_wanted (e : LiveTreeEvent) : bool :=
  lte_isLive e && ev_isPlayable (lte_event e).

(** [extractEventIds]. *)
Definition extractEventIds (c : Config) (liveTreeData : list LiveFeedSport) : list Z :=
  flat_map (fun sport =>
    if negb (sport_selected c (lfs_id sport)) then [] else
    flat_map (fun region =>
      flat_map (fun competition =>
        flat_map (fun event =>
          if live_wanted event then [ev_id (lte_event event)] else [])
          (lfc_events competition))
        (lfr_competitions region))
      (lfs_regions sport))
    liveTreeData.

(** [processLiveEvents] (the live results are not modelled; the final
    [saveProcessedData] is [collectLiveFeedData]'s). *)
Definition processLiveEvents (c : Config) (liveTreeData : list LiveFeedSport) : Config :=
  fold_left (fun c sport =>
    if negb (sport_selected c (lfs_id sport)) then c else
    fold_left (fun c region =>
      fold_left (fun c competition =>
        fold_left (fun c event =>
          if live_wanted event then live_processLiveEvent c (lte_event event) else c)
          (lfc_events competition) c)
        (lfr_competitions region) c)
      (lfs_regions sport) c)
    liveTreeData c.

(** [collectLiveFeedData]: [liveTreeData] is what [fetchLiveTreeData]
    returned ([[]] on a failed request). Returns the new state and the
    snapshot saved. *)
Definition collectLiveFeedData (liveTreeData : list LiveFeedSport) (s : Svc)
    : Svc * option (list Match) :=
  if (length liveTreeData =? 0)%nat then (s, None) else
  let eventIds := extractEventIds (cfg s) liveTreeData in
  if (length eventIds =? 0)%nat then (s, None) else
  let c' := processLiveEvents (cfg s) liveTreeData in
  (mkSvc c' (live_startCacheUpdates (cacheUpdateTimer s) c') (lastDeltaCacheNumber s),
   saveProcessedData c').

(** *** PreGamesService phase one *)

(** [processBatchWithConcurrency]: [processor] returns [None] when its
    promise rejects; [fuel] bounds the loop, [None] meaning it did not end
    (with [concurrency = 0] the source loop never ends on a non-empty
    array). *)
Fixpoint batch_loop {T R : Type} (processor : T -> option R) (concurrency : nat)
    (items : list T) (fuel i : nat) (results : list R) : option (list R) :=
  if (i <? length items)%nat then
    match fuel with
    | O => None
    | S fuel' =>
        let batch := take concurrency (drop i items) in
        batch_loop processor concurrency items fuel' (i + concurrency)
          (results ++ omap processor batch)
    end
  else Some results.

Definition processBatchWithConcurrency {T R : Type} (items : list T)
    (processor : T -> option R) (concurrency : nat) : option (list R) :=
  batch_loop processor concurrency items (S (length items)) 0 [].

(** [AdmiralBetEvent]: the event and the ids the detailed-odds request
    needs. *)
Record AdmiralBetEvent := mkAdmiralBetEvent {
  ab_regionId : Z; ab_competitionId : Z; ab_event : Event
}.

(** [collectAdmiralBet{Basketball,Tennis,Football}Data] for the sport id
    and code of each: [events] is what the paginated fetch returned. The
    processor calls [fetchDetailedOddsForMatch], which catches its errors
    and yields [null], so it never rejects. Returns the new config and
    the snapshot saved. *)
Definition collectAdmiralBetData (sportId : Z) (sport : string)
    (fetch : DetailedOddsApi) (events : list AdmiralBetEvent) (c : Config)
    : Config * option (list Match) :=
  if (length events =? 0)%nat then (c, None) else
  let detailedOddsProcessor := fun (event : AdmiralBetEvent) =>
    Some (event, fetch sportId (ab_regionId event) (ab_competitionId event)
                   (ev_id (ab_event event))) in
  match processBatchWithConcurrency events detailedOddsProcessor 35 with
  | Some batchResults =>
      let c' := fold_left (fun c r => pre_processEvent sport c (ab_event r.1) r.2)
                  batchResults c in
      (c', saveProcessedData c')
  | None => (c, None)
  end.

(** [collectPreGamesData]. *)
Definition collectPreGamesData (fetch : DetailedOddsApi) (events : list AdmiralBetEvent)
    (s : Svc) : Svc * option (list Match) :=
  let c := cfg s in
  let '(c', saved) :=
    if String.eqb (selectedSport c) "B" then collectAdmiralBetData 2 "B" fetch events c
    else if String.eqb (selectedSport c) "T" then collectAdmiralBetData 3 "T" fetch events c
    else if String.eqb (selectedSport c) "S" then collectAdmiralBetData 1 "S" fetch events c
    else (c, None) in
  (mkSvc c' (pregames_startCacheUpdates (cacheUpdateTimer s) c') (lastDeltaCacheNumber s),
   saved).

(** A store whose every entry is keyed by its match's id and belongs to
    the selected sport. *)
Definition store_wf (c : Config) : Prop :=
  map_Forall (fun k m => m_id m = k /\ m_sport m = selectedSport c) (matches c).

(** A store whose every entry is keyed by its match's id and has one of
    the three sports (not necessarily the selected one). *)
Definition pre_wf (c : Config) : Prop :=
  map_Forall (fun k m => m_id m = k /\ in_slist (m_sport m) ALLOWED_SPORTS = true) (matches c).

(** [c'] differs from [c] at most in its store. *)
Definition only_store (c c' : Config) : Prop := exists ms, c' = set_matches c ms.

(** [c] was obtained from [c0] by storing, under every key of [ids], a
    match satisfying [Q], and leaving the other keys alone. *)
Definition stores (Q : Z -> Match -> Prop) (c0 c : Config) (ids : list Z) : Prop :=
  only_store c0 c /\ (forall k, k ∉ ids -> matches c !! k = matches c0 !! k) /\
  (forall k, k ∈ ids -> exists m, matches c !! k = Some m /\ Q k m).

(** *** Runs *)

(** A method runs without interruption up to its next [await] on I/O
    (a request, a storage call, a timer); what follows runs later, against
    the state of that moment, and in between any other call, timer tick or
    pending continuation may run. A step below is one synchronous segment
    that changes the service:
    - [start*] up to its [await clearData()] (the collection it then fires
      without awaiting is made of the other steps);
    - the store update of one event ([processLiveEvent], or the
      [processAdmiralBet*Event] that a sport id selects), run after the
      awaits that fetched the event, in whatever session is current then;
    - one iteration of the pre-games [processChangedEvents] loop (the
      refresh of an event already stored is synchronous);
    - the loop of [processChangedBetOutcomes], which has no [await];
    - the cache-token write of a delta response, made after the request
      without checking [isRunning] again;
    - [startCacheUpdates] at the end of a collection;
    - [stop*] up to its save.
    Any sequence of steps is allowed, so the runs include every
    interleaving the event loop can produce (and more). [*Collect] and
    [*Poll] are a whole collection or delta poll with no step in between. *)
Inductive live_op :=
  | LiveStart (collectionInterval : Z) (sport : string)
  | LiveCollect (liveTreeData : list LiveFeedSport)
  | LivePoll (fetch : DetailedOddsApi) (resp : option CacheChangesResponse)
  | LiveStop
  | LiveStoreEvent (event : Event)
  | LiveOutcomes (changedBetOutcomes : list ChangedOutcome)
  | LiveToken (maxDeltaCacheNumberAsString : option string)
  | LiveTimer.

(** [if (response.data.maxDeltaCacheNumberAsString) this.lastDeltaCacheNumber = ...]. *)
Definition set_token (s : Svc) (max : option string) : Svc :=
  if truthy max then mkSvc (cfg s) (cacheUpdateTimer s) max else s.

Definition live_step (s : Svc) (op : live_op) : Svc :=
  match op with
  | LiveStart i sp =>
      mkSvc (fst (startLiveFeed (cfg s) i sp)) (cacheUpdateTimer s) (lastDeltaCacheNumber s)
  | LiveCollect t => fst (collectLiveFeedData t s)
  | LivePoll fetch r => live_updateCacheChanges fetch s r
  | LiveStop => fst (stop s)
  | LiveStoreEvent ev =>
      mkSvc (live_processLiveEvent (cfg s) ev) (cacheUpdateTimer s) (lastDeltaCacheNumber s)
  | LiveOutcomes rs =>
      mkSvc (live_processChangedBetOutcomes (cfg s) rs) (cacheUpdateTimer s) (lastDeltaCacheNumber s)
  | LiveToken max => set_token s max
  | LiveTimer =>
      mkSvc (cfg s) (live_startCacheUpdates (cacheUpdateTimer s) (cfg s)) (lastDeltaCacheNumber s)
  end.

Inductive pre_op :=
  | PreStart (collectionInterval : Z) (sport : string)
  | PreCollect (fetch : DetailedOddsApi) (events : list AdmiralBetEvent)
  | PrePoll (fetch : DetailedOddsApi) (resp : option CacheChangesResponse)
  | PreStop
  | PreStoreEvent (sportId : Z) (event : Event) (detailedOdds : option (list Bet))
  | PreChangedEvent (fetch : DetailedOddsApi) (changedEvent : ChangedEvent)
  | PreOutcomes (changedBetOutcomes : list ChangedOutcome)
  | PreToken (maxDeltaCacheNumberAsString : option string)
  | PreTimer.

(** The processor of a sport id: [processAdmiralBetFootballEvent] (1),
    [processAdmiralBetEvent] (2), [processAdmiralBetTennisEvent] (3), each
    storing its own literal sport. *)
Definition pre_processEventOf (sportId : Z) (c : Config) (ev : Event)
    (detailedOdds : option (list Bet)) : Config :=
  match sportMapping sportId with
  | Some sport => pre_processEvent sport c ev detailedOdds
  | None => c
  end.

Definition pre_step (s : Svc) (op : pre_op) : Svc :=
  match op with
  | PreStart i sp =>
      mkSvc (fst (startPreGames (cfg s) i sp)) (cacheUpdateTimer s) (lastDeltaCacheNumber s)
  | PreCollect fetch evs => fst (collectPreGamesData fetch evs s)
  | PrePoll fetch r => pre_updateCacheChanges fetch s r
  | PreStop => fst (stop s)
  | PreStoreEvent id ev d =>
      mkSvc (pre_processEventOf id (cfg s) ev d) (cacheUpdateTimer s) (lastDeltaCacheNumber s)
  | PreChangedEvent fetch e =>
      mkSvc (pre_changedEvent fetch (cfg s) e) (cacheUpdateTimer s) (lastDeltaCacheNumber s)
  | PreOutcomes rs =>
      mkSvc (pre_processChangedBetOutcomes (cfg s) rs) (cacheUpdateTimer s) (lastDeltaCacheNumber s)
  | PreToken max => set_token s max
  | PreTimer =>
      mkSvc (cfg s) (pregames_startCacheUpdates (cacheUpdateTimer s) (cfg s)) (lastDeltaCacheNumber s)
  end.

Definition live_run (ops : list live_op) : Svc := fold_left live_step ops live_init.
Definition pre_run (ops : list pre_op) : Svc := fold_left pre_step ops pre_init.

(** *** getStatus *)

(** The counters of [getStatus] (the storage flags, the preview and the
    bet-type constants are left out). *)
Record Status := mkStatus {
  st_isRunning : bool;
  st_collectionInterval : Z;
  st_selectedSport : string;
  totalMatches : nat;
  totalLeagues : nat;
  basketball_total : nat;
  basketball_withOdds : nat;
  tennis_total : nat;
  tennis_withOdds : nat;
  football_total : nat;
  football_withOdds : nat
}.

(** [match.bets.odds.k1 || match.bets.odds.k2 || ...]: an entry is an
    object, so it is truthy exactly when present. *)
Definition with_any (ks : list string) (m : Match) : bool :=
  existsb (has_key (m_odds m)) ks.

Definition of_sport (sp : string) (c : Config) : list Match :=
  filter (fun m => String.eqb (m_sport m) sp) (map snd (map_to_list (matches c))).

Definition getStatus (basketballKeys tennisKeys footballKeys : list string)
    (c : Config) : Status :=
  let b := of_sport "B" c in
  let t := of_sport "T" c in
  let f := of_sport "S" c in
  mkStatus (isRunning c) (collectionInterval c) (selectedSport c)
    (size (matches c)) (size (leagues c))
    (length b) (length (filter (with_any basketballKeys) b))
    (length t) (length (filter (with_any tennisKeys) t))
    (length f) (length (filter (with_any footballKeys) f)).

Definition live_getStatus :=
  getStatus ["basketballFTOT1"; "basketballFTOT2"]
    ["tennisHomeWins"; "tennisAwayWins"]
    ["fullTimeResultHomeWin"; "fullTimeResultDraw"; "fullTimeResultAwayWin";
     "firstHalfResultHomeWin"; "firstHalfResultDraw"; "firstHalfResultAwayWin"].

Definition pre_getStatus :=
  getStatus ["basketballFTOT1"; "basketballFTOT2"]
    ["tennisHomeWins"; "tennisAwayWins"; "tennisHomeWinsFirstSet"; "tennisAwayWinsFirstSet"]
    ["fullTimeResultHomeWin"; "fullTimeResultDraw"; "fullTimeResultAwayWin";
     "firstHalfResultHomeWin"; "firstHalfResultDraw"; "firstHalfResultAwayWin";
     "bothTeamsToScore"; "oneTeamNotToScore"].

End Service.

(* ================================================================== *)
(** * JavaScript number parsing and printing *)

Module Num.

Definition is_space (c : Ascii.ascii) : bool :=
  let n := Ascii.nat_of_ascii c in
  (n =? 32)%nat || ((9 <=? n)%nat && (n <=? 13)%nat).

(** Leading white space, as [parseInt] strips it (ASCII range). *)
Fixpoint trimStart (s : string) : string :=
  match s with
  | String c s' => if is_space c then trimStart s' else s
  | EmptyString => EmptyString
  end.

(** The value of a digit in base [radix] (10 or 16). *)
Definition digit_val (radix : Z) (c : Ascii.ascii) : option Z :=
  let n := Z.of_nat (Ascii.nat_of_ascii c) in
  if (48 <=? n) && (n <=? 57) then Some (n - 48)
  else if radix =? 16 then
    if (97 <=? n) && (n <=? 102) then Some (n - 87)
    else if (65 <=? n) && (n <=? 70) then Some (n - 55)
    else None
  else None.

(** The value of the longest digit prefix, accumulated onto [acc]. *)
Fixpoint digits_acc (radix acc : Z) (s : string) : Z :=
  match s with
  | String c s' =>
      match digit_val radix c with
      | Some d => digits_acc radix (acc * radix + d) s'
      | None => acc
      end
  | EmptyString => acc
  end.

(** [parseInt(s)] with no radix; [None] is [NaN]. The result is exact,
    which the double JavaScript returns is for magnitudes up to 2^53. *)
Definition parseInt (s : string) : option Z :=
  let s1 := trimStart s in
  let '(sign, s2) :=
    match s1 with
    | String "-"%char r => (-1, r)
    | String "+"%char r => (1, r)
    | _ => (1, s1)
    end in
  let '(radix, s3) :=
    match s2 with
    | String "0"%char (String x r) =>
        if Ascii.eqb x "x"%char || Ascii.eqb x "X"%char then (16, r) else (10, s2)
    | _ => (10, s2)
    end in
  match s3 with
  | String c _ =>
      match digit_val radix c with
      | Some _ => Some (sign * digits_acc radix 0 s3)
      | None => None
      end
  | EmptyString => None
  end.

Definition digit_char (d : Z) : Ascii.ascii := Ascii.ascii_of_nat (Z.to_nat (48 + d)).

(** The decimal digits of [n >= 0] prepended to [acc]; [fuel] bounds the
    number of digits. *)
Fixpoint to_digits (fuel : nat) (n : Z) (acc : string) : string :=
  match fuel with
  | O => acc
  | S f =>
      let acc' := String (digit_char (n mod 10)) acc in
      if n <? 10 then acc' else to_digits f (n / 10) acc'
  end.

(** The decimal digits of [m >= 0]. *)
Definition decimal (m : Z) : string := to_digits (S (Z.to_nat (Z.log2 m))) m EmptyString.

(** The number value of the integer [m >= 0]: the double nearest to it
    (a 53-bit significand, ties to even), as an integer; a result of
    2^1024 or more is [Infinity]. Below 2^53 every integer is a double. *)
Definition to_double (m : Z) : Z :=
  let b := Z.log2 m in
  if b <=? 52 then m
  else
    let sh := b - 52 in
    let q := m / 2 ^ sh in
    let r := m mod 2 ^ sh in
    let half := 2 ^ (sh - 1) in
    let q' := if (half <? r) || ((r =? half) && Z.odd q) then q + 1 else q in
    q' * 2 ^ sh.

(** A digit string without its trailing zeros. *)
Fixpoint strip_trailing_zeros (s : string) : string :=
  match s with
  | EmptyString => EmptyString
  | String c s' =>
      let r := strip_trailing_zeros s' in
      if String.eqb r "" && Ascii.eqb c "0"%char then EmptyString else String c r
  end.

(** Step 5 of [Number::toString] for a double [x] with [D] digits: the
    significand [s] with the fewest digits [k] (tried from [k] up) such
    that [s * 10^e] is [x] once rounded, with [e = D - k]; the closer of
    the two candidates when both are (V8's choice). A double needs at most
    17 digits. *)
Fixpoint shortest_from (fuel : nat) (k x D : Z) : Z * Z :=
  match fuel with
  | O => (x, 0)
  | S f =>
      let e := D - k in
      let lo := x / 10 ^ e in
      let hi := lo + 1 in
      let rlo := to_double (lo * 10 ^ e) =? x in
      let rhi := to_double (hi * 10 ^ e) =? x in
      if rlo && rhi then
        if x - lo * 10 ^ e <=? hi * 10 ^ e - x then (lo, e) else (hi, e)
      else if rlo then (lo, e)
      else if rhi then (hi, e)
      else shortest_from f (k + 1) x D
  end.

(** The exponent form [d.ddd] [e+] [n-1] of a double [x >= 10^21]. *)
Definition exponent_form (x : Z) : string :=
  let D := Z.of_nat (String.length (decimal x)) in
  let '(s, e) := shortest_from 17 1 x D in
  let n := Z.of_nat (String.length (decimal s)) + e in
  match strip_trailing_zeros (decimal s) with
  | String d rest =>
      String d (String.append (if String.eqb rest "" then "" else String "."%char rest)
                  (String.append "e+" (decimal (n - 1))))
  | EmptyString => "0"
  end.

(** [Number::toString] of a double [x >= 0]. *)
Definition nonneg_toString (x : Z) : string :=
  if 2 ^ 1024 <=? x then "Infinity"
  else if x <? 10 ^ 21 then decimal x
  else exponent_form x.

(** [String(n)] / [n.toString()] of the number value of the integer [n]:
    the plain decimal below 10^21 in magnitude, the exponent form from
    there. It is the exact decimal of [n] when [|n| < 2^53]. *)
Definition numberToString (n : Z) : string :=
  let x := to_double (Z.abs n) in
  if n <? 0 then String "-"%char (nonneg_toString x) else nonneg_toString x.


(** Every character is a decimal digit. *)
Fixpoint all_digits (s : string) : bool :=
  match s with
  | String c s' => bool_decide (is_Some (digit_val 10 c)) && all_digits s'
  | EmptyString => true
  end.
End Num.

(* ================================================================== *)
(** * HTTP controllers (LiveFeedController, PreGamesController) *)

Module Api.
Import Js Session Service.

(** A response: its status code and its [success] field. *)
Record Reply := mkReply { code : Z; success : bool }.

(** [LiveFeedController.startLiveFeed]; [None] for a field absent from
    the body. The storage reset and the collection [startLiveFeed] fires
    are not modelled here. *)
Definition live_startLiveFeed (s : Svc) (collectionInterval : option Z)
    (sport : option string) : Svc * Reply :=
  let i := default 1 collectionInterval in
  let sp := default "S"%string sport in
  if (i <? 1) || (300 <? i) then (s, mkReply 400 false)
  else if negb (Js.in_slist sp ["S"; "B"; "T"]) then (s, mkReply 400 false)
  else
    let '(c', err) := startLiveFeed (cfg s) i sp in
    let s' := mkSvc c' (cacheUpdateTimer s) (lastDeltaCacheNumber s) in
    match err with
    | Some _ => (s', mkReply 500 false)
    | None => (s', mkReply 200 true)
    end.

(** [PreGamesController.startPreGames]: a running collection is stopped
    first. *)
Definition pre_startPreGames (s : Svc) (collectionInterval : option Z)
    (sport : option string) : Svc * Reply :=
  let i := default 120 collectionInterval in
  let sp := default "B"%string sport in
  if negb (Js.in_list i [120]) then (s, mkReply 400 false)
  else if negb (Js.in_slist sp ["B"; "T"; "S"]) then (s, mkReply 400 false)
  else
    let s1 := if isRunning (cfg s) then fst (stop s) else s in
    let '(c', err) := startPreGames (cfg s1) i sp in
    let s' := mkSvc c' (cacheUpdateTimer s1) (lastDeltaCacheNumber s1) in
    match err with
    | Some _ => (s', mkReply 500 false)
    | None => (s', mkReply 200 true)
    end.

(** [getMatchById] of either controller on the service's store. *)
Definition getMatchById (ms : gmap Z Match) (matchId : string) : Reply * option Match :=
  match Num.parseInt matchId with
  | None => (mkReply 400 false, None)
  | Some n =>
      match ms !! n with
      | None => (mkReply 404 false, None)
      | Some m => (mkReply 200 true, Some m)
      end
  end.

End Api.

(* ================================================================== *)
(** * RedisService field encoding *)

Module Codec.

(** The JavaScript values a [ProcessedMatch] field can hold. *)
Inductive jsval :=
  | JUndefined
  | JNull
  | JBool (b : bool)
  | JNum (n : Z)        (* the number value of the integer [n] *)
  | JNaN
  | JStr (s : string).

Definition js_truthy (v : jsval) : bool :=
  match v with
  | JUndefined | JNull | JNaN => false
  | JBool b => b
  | JNum n => negb (n =? 0)
  | JStr s => negb (String.eqb s "")
  end.

(** [a || b]. *)
Definition js_or (v d : jsval) : jsval := if js_truthy v then v else d.

(** [a !== undefined ? a : d]. *)
Definition def_undefined (v d : jsval) : jsval :=
  match v with JUndefined => d | _ => v end.

(** [safeToString]: [String(value)] for a value that is not [null] or
    [undefined]. *)
Definition safeToString (v : jsval) : string :=
  match v with
  | JUndefined | JNull => ""
  | JBool b => if b then "true" else "false"
  | JStr s => s
  | JNum n => Num.numberToString n
  | JNaN => "NaN"
  end.

(** A match object: its fields by name, [undefined] when absent. *)
Definition obj := gmap string jsval.

Definition get (o : obj) (k : string) : jsval := default JUndefined (o !! k).

(** The scalar part of [hashData] in [saveMatches] ([bets] is
    [JSON.stringify]'d and not modelled). *)
Definition hashData (o : obj) : gmap string string :=
  list_to_map [
    ("id", safeToString (js_or (get o "id") (JNum 0)));
    ("matchCode", safeToString (js_or (get o "matchCode") (JNum 0)));
    ("home", safeToString (get o "home"));
    ("away", safeToString (get o "away"));
    ("league", safeToString (get o "league"));
    ("leagueShort", safeToString (get o "leagueShort"));
    ("sport", safeToString (get o "sport"));
    ("sportName", safeToString (get o "sportName"));
    ("kickOffTime", safeToString (js_or (get o "kickOffTime") (JNum 0)));
    ("liveStatus", safeToString (get o "liveStatus"));
    ("streamSource", safeToString (get o "streamSource"));
    ("tvChannelInfo", safeToString (get o "tvChannelInfo"));
    ("isLive", safeToString (def_undefined (get o "isLive") (JBool false)));
    ("announcement", safeToString (def_undefined (get o "announcement") (JBool false)));
    ("lastChangeTime", safeToString (js_or (get o "lastChangeTime") (JNum 0)));
    ("bettingAllowed", safeToString (def_undefined (get o "bettingAllowed") (JBool false)));
    ("topMatch", safeToString (def_undefined (get o "topMatch") (JBool false)));
    ("externalId", safeToString (get o "externalId"));
    ("leagueId", safeToString (js_or (get o "leagueId") (JNum 0)))
  ]%string.

(** [matchData.k] of a hash read by [hGetAll]: a string, or [undefined]. *)
Definition hget (h : gmap string string) (k : string) : jsval :=
  match h !! k with Some s => JStr s | None => JUndefined end.

(** [parseInt(matchData.k)]; [parseInt(undefined)] is [NaN]. *)
Definition hint (h : gmap string string) (k : string) : jsval :=
  match h !! k with
  | Some s => match Num.parseInt s with Some n => JNum n | None => JNaN end
  | None => JNaN
  end.

(** [matchData.k === 'true']. *)
Definition hbool (h : gmap string string) (k : string) : jsval :=
  JBool (bool_decide (h !! k = Some "true"%string)).

(** The scalar part of the object [getMatches] rebuilds from a hash. *)
Definition fromHash (h : gmap string string) : obj :=
  list_to_map [
    ("id", hint h "id");
    ("matchCode", hint h "matchCode");
    ("home", hget h "home");
    ("away", hget h "away");
    ("league", hget h "league");
    ("leagueShort", hget h "leagueShort");
    ("sport", hget h "sport");
    ("sportName", hget h "sportName");
    ("kickOffTime", hint h "kickOffTime");
    ("liveStatus", hget h "liveStatus");
    ("streamSource", hget h "streamSource");
    ("tvChannelInfo", hget h "tvChannelInfo");
    ("isLive", hbool h "isLive");
    ("announcement", hget h "announcement");
    ("lastChangeTime", hint h "lastChangeTime");
    ("bettingAllowed", hbool h "bettingAllowed");
    ("topMatch", hbool h "topMatch");
    ("externalId", hget h "externalId");
    ("leagueId", hint h "leagueId")
  ]%string.

Definition NUMBER_FIELDS : list string :=
  ["id"; "matchCode"; "kickOffTime"; "lastChangeTime"; "leagueId"]%string.
Definition STRING_FIELDS : list string :=
  ["home"; "away"; "league"; "leagueShort"; "sport"; "sportName"; "liveStatus";
   "streamSource"; "tvChannelInfo"; "externalId"]%string.
Definition BOOLEAN_FIELDS : list string :=
  ["isLive"; "bettingAllowed"; "topMatch"]%string.

End Codec.

(* ================================================================== *)
(** * Properties *)

Module Props.
Import Odds Norm Session Store Paging Storage Inv Samples.

(* ------------------------------------------------------------------ *)
(** ** Start *)

Lemma start_rejects (allowed : list Z) (c : Config) (interval : Z) (sport : string) :
  isRunning c = false ->
  Js.in_slist sport ALLOWED_SPORTS && Js.in_list interval allowed = false ->
  fst (start allowed c interval sport) = c /\ is_Some (snd (start allowed c interval sport)).
Proof.
  intros H. unfold start. rewrite H.
  destruct (Js.in_slist sport ALLOWED_SPORTS), (Js.in_list interval allowed);
    simpl; intros E; try discriminate; split; try reflexivity; eexists; reflexivity.
Qed.

Lemma start_accepts (allowed : list Z) (c : Config) (interval : Z) (sport : string) :
  isRunning c = false ->
  Js.in_slist sport ALLOWED_SPORTS && Js.in_list interval allowed = true ->
  isRunning (fst (start allowed c interval sport)) = true /\ snd (start allowed c interval sport) = None.
Proof.
  intros H. unfold start. rewrite H.
  destruct (Js.in_slist sport ALLOWED_SPORTS), (Js.in_list interval allowed);
    simpl; intros E; try discriminate; split; reflexivity.
Qed.

(** C1: when no session is running, [startLiveFeed] (intervals 1, 15, 30,
    60, 120) and [startPreGames] (interval 120) reject an unsupported sport
    or interval with an error and leave the state as it was, and accept a
    valid pair by setting [isRunning]; when a session is running, both
    return without validating or changing anything. *)
Theorem C1_start_contract : forall (c : Config) (interval : Z) (sport : string),
  (isRunning c = true ->
     startLiveFeed c interval sport = (c, None) /\
     startPreGames c interval sport = (c, None)) /\
  (isRunning c = false ->
     (Js.in_slist sport ["B"; "T"; "S"] && Js.in_list interval [1; 15; 30; 60; 120] = false ->
        fst (startLiveFeed c interval sport) = c /\
        is_Some (snd (startLiveFeed c interval sport))) /\
     (Js.in_slist sport ["B"; "T"; "S"] && Js.in_list interval [1; 15; 30; 60; 120] = true ->
        isRunning (fst (startLiveFeed c interval sport)) = true /\
        snd (startLiveFeed c interval sport) = None) /\
     (Js.in_slist sport ["B"; "T"; "S"] && Js.in_list interval [120] = false ->
        fst (startPreGames c interval sport) = c /\
        is_Some (snd (startPreGames c interval sport))) /\
     (Js.in_slist sport ["B"; "T"; "S"] && Js.in_list interval [120] = true ->
        isRunning (fst (startPreGames c interval sport)) = true /\
        snd (startPreGames c interval sport) = None)).
Proof.
  intros c interval sport. split.
  - intros H. unfold startLiveFeed, startPreGames, start. rewrite H. split; reflexivity.
  - intros H. split; [|split; [|split]];
      [apply (start_rejects LIVE_INTERVALS) | apply (start_accepts LIVE_INTERVALS)
      |apply (start_rejects PREGAMES_INTERVALS) | apply (start_accepts PREGAMES_INTERVALS)];
      exact H.
Qed.

Lemma C1_start_contract_witness :
  (fst (startLiveFeed (mkConfig false 30 "S" ∅ ∅) 45 "S") = mkConfig false 30 "S" ∅ ∅ /\
   is_Some (snd (startLiveFeed (mkConfig false 30 "S" ∅ ∅) 45 "S"))) /\
  (isRunning (fst (startPreGames (mkConfig false 30 "S" ∅ ∅) 120 "B")) = true).
Proof.
  pose proof (C1_start_contract (mkConfig false 30 "S" ∅ ∅) 45 "S") as [_ H1].
  pose proof (C1_start_contract (mkConfig false 30 "S" ∅ ∅) 120 "B") as [_ H2].
  split.
  - apply (proj1 (H1 eq_refl)). reflexivity.
  - apply (proj2 (H2 eq_refl)). reflexivity.
Defined.

(* ------------------------------------------------------------------ *)
(** ** Pagination *)

Lemma concat_empty_tail (p0 p1 p3 : list Z) :
  forall n s, (4 <= s)%nat -> concat (map (four_pages p0 p1 p3) (seq s n)) = [].
Proof.
  induction n as [|n IH]; intros s Hs; [reflexivity|].
  simpl. rewrite IH by lia.
  destruct s as [|[|[|[|s]]]]; try lia. reflexivity.
Qed.

Lemma concat_four_pages (p0 p1 p3 : list Z) (k : nat) :
  (3 <= k)%nat ->
  concat (map (four_pages p0 p1 p3) (seq 0 k)) =
  p0 ++ p1 ++ (if (4 <=? k)%nat then p3 else []).
Proof.
  intros Hk. replace k with (3 + (k - 3))%nat by lia.
  rewrite seq_app, map_app, concat_app. simpl.
  destruct (k - 3)%nat as [|m] eqn:Hm.
  - replace (4 <=? 3 + 0)%nat with false by (symmetry; apply Nat.leb_gt; lia).
    simpl. rewrite !app_nil_r. reflexivity.
  - replace (4 <=? 3 + S m)%nat with true by (symmetry; apply Nat.leb_le; lia).
    simpl. rewrite (concat_empty_tail p0 p1 p3 m 4) by lia.
    rewrite !app_nil_r, <- !app_assoc. reflexivity.
Qed.

Lemma batches_step pages totalPages concurrency fuel currentPage allEvents requested :
  (currentPage < totalPages)%nat ->
  batches pages totalPages concurrency (S fuel) currentPage allEvents requested =
  let batchSize := Nat.min concurrency (totalPages - currentPage) in
  let pageNumbers := seq currentPage batchSize in
  let batchResults := map pages pageNumbers in
  if existsb (fun evs => (length evs =? 0)%nat) batchResults
  then Some (allEvents ++ concat batchResults, requested ++ pageNumbers)
  else batches pages totalPages concurrency fuel (currentPage + batchSize)
         (allEvents ++ concat batchResults) (requested ++ pageNumbers).
Proof.
  intros H. simpl. apply Nat.ltb_lt in H. rewrite H. reflexivity.
Qed.
(** C3 (counterexample): with concurrency 4 the first batch already
    requests the fourth page, and its events are returned. *)
Lemma C3_counterexample :
  exists evs requested,
    fetchEvents (four_pages [1] [2] [4]) 1 4 = Some (evs, requested) /\
    evs <> [1] ++ [2] /\ In 3%nat requested.
Proof.
  exists [1; 2; 4], [0; 1; 2; 3]%nat. split; [reflexivity|].
  split; [discriminate | simpl; tauto].
Qed.

(** C3 (amended): for pages [[N items, N items, 0 items, N items]] (page
    size N, so the estimate is 100 pages) and concurrency c >= 3, the fetch
    makes one batch, the pages 0 .. min(c,100)-1, and returns the events of
    the first two pages followed, when c >= 4, by those of the fourth page.
    With c = 3 the fourth page is never requested. *)
Theorem C3_amended : forall (N c : nat) (p0 p1 p3 : list Z),
  length p0 = N -> length p1 = N -> length p3 = N -> (0 < N)%nat -> (3 <= c)%nat ->
  fetchEvents (four_pages p0 p1 p3) N c =
    Some (p0 ++ p1 ++ (if (4 <=? c)%nat then p3 else []), seq 0 (Nat.min c 100)).
Proof.
  intros N c p0 p1 p3 H0 _ _ HN Hc.
  unfold fetchEvents, estimateTotalPages, fetchPagesConcurrently.
  change (four_pages p0 p1 p3 0%nat) with p0.
  rewrite H0, Nat.eqb_refl.
  rewrite batches_step by lia. cbv zeta.
  rewrite Nat.sub_0_r.
  set (k := Nat.min c 100).
  assert (Hk : (3 <= k)%nat) by (unfold k; lia).
  replace (existsb (fun evs => (length evs =? 0)%nat) (map (four_pages p0 p1 p3) (seq 0 k)))
    with true.
  - rewrite concat_four_pages by exact Hk.
    replace (4 <=? k)%nat with (4 <=? c)%nat
      by (unfold k; destruct (Nat.leb_spec 4 c), (Nat.leb_spec 4 (Nat.min c 100)); lia).
    reflexivity.
  - replace k with (3 + (k - 3))%nat by lia.
    rewrite seq_app, map_app, existsb_app. simpl.
    destruct (length p0 =? 0)%nat, (length p1 =? 0)%nat; reflexivity.
Qed.

Lemma C3_amended_witness :
  fetchEvents (four_pages [1] [2] [4]) 1 3 = Some ([1] ++ [2] ++ [], seq 0 3).
Proof. apply (C3_amended 1 3 [1] [2] [4]); simpl; lia. Defined.

(* ------------------------------------------------------------------ *)
(** ** Poll period *)

(** C8 (counterexample): a pre-games session (interval 120, its only
    allowed value) polls every 5 s, not 10 s. *)
Lemma C8_counterexample :
  pregames_startCacheUpdates None (mkConfig true 120 "B" ∅ ∅) = Some 5000 /\
  spec_poll_period 120 = 10000.
Proof. split; reflexivity. Qed.

(** C8 (amended): the live-feed poll period follows the interval
    (1 -> 1 s, <= 15 -> 2 s, <= 30 -> 5 s, else 10 s); the pre-games poll
    period is 5 s whatever the interval. *)
Theorem C8_amended : forall (c : Config),
  live_startCacheUpdates None c = Some (spec_poll_period (collectionInterval c)) /\
  pregames_startCacheUpdates None c = Some 5000.
Proof. intros c. split; reflexivity. Qed.

(* ------------------------------------------------------------------ *)
(** ** Stream bootstrap cursor *)

(** C9: an END timestamp more than 300 s old is replaced by the current
    time as the resume cursor; one within 300 s is used as it is (e.g.
    now-400 -> now, now-100 -> now-100). *)
Theorem C9_resume_cursor : forall (now endTimestamp : Z),
  (now - endTimestamp > 300 -> Stream.resume_cursor now endTimestamp = now) /\
  (now - endTimestamp <= 300 -> Stream.resume_cursor now endTimestamp = endTimestamp).
Proof.
  intros now ts. unfold Stream.resume_cursor.
  split; intros H; destruct (Z.gtb_spec (now - ts) 300); lia.
Qed.

Lemma C9_resume_cursor_witness :
  Stream.resume_cursor 1000000 (1000000 - 400) = 1000000 /\
  Stream.resume_cursor 1000000 (1000000 - 100) = 1000000 - 100.
Proof.
  split.
  - apply (proj1 (C9_resume_cursor 1000000 (1000000 - 400))); lia.
  - apply (proj2 (C9_resume_cursor 1000000 (1000000 - 100))); lia.
Defined.

(* ------------------------------------------------------------------ *)
(** ** Changed bet outcomes *)

Lemma changedOutcome_skip (upd : Updater) (c : Config) (r : ChangedOutcome) :
  sport_selected c (zat (co_id r) 1) = false \/ matches c !! zat (co_id r) 4 = None ->
  changedOutcome upd c r = c.
Proof.
  intros H. unfold changedOutcome.
  destruct (co_valid r); [|reflexivity]. simpl.
  destruct H as [H | H]; rewrite H; [reflexivity|].
  destruct (sport_selected c _); reflexivity.
Qed.

(** C10: a changed-bet-outcome record whose sport is not the selected one,
    or whose event id is not in the store, changes nothing: the loop goes
    on with the next record from the same state (for either service's
    [updateMatchOdds]). *)
Theorem C10_unknown_event_skipped : forall (upd : Updater) (c : Config)
    (r : ChangedOutcome) (rs : list ChangedOutcome),
  sport_selected c (zat (co_id r) 1) = false \/ matches c !! zat (co_id r) 4 = None ->
  processChangedBetOutcomes upd c (r :: rs) = processChangedBetOutcomes upd c rs.
Proof.
  intros upd c r rs H. unfold processChangedBetOutcomes. simpl.
  rewrite changedOutcome_skip by exact H. reflexivity.
Qed.

Lemma C10_unknown_event_skipped_witness :
  live_processChangedBetOutcomes c5_config
    [mkChangedOutcome [1; 1; 0; 0; 99] [0; 5; 150] ["Konacan ishod"; "1"; ""]] =
  live_processChangedBetOutcomes c5_config [].
Proof.
  apply (C10_unknown_event_skipped live_updateMatchOdds c5_config
           (mkChangedOutcome [1; 1; 0; 0; 99] [0; 5; 150] ["Konacan ishod"; "1"; ""]) []).
  right. reflexivity.
Defined.

(* ------------------------------------------------------------------ *)
(** ** New events of the delta path *)

(** The live delta path stores the same record whatever the detailed-odds
    endpoint returns. *)
Lemma live_changedEvent_fetch_irrelevant (f1 f2 : DetailedOddsApi) (c : Config)
    (e : ChangedEvent) :
  live_changedEvent f1 c e = live_changedEvent f2 c e.
Proof. reflexivity. Qed.

(** C5: for a new football event the live feed fetches a payload whose
    normalisation has [fullTimeResultHomeWin], yet the record it stores for
    the event has no odds at all; the pre-games service, on the same input,
    stores the normalised payload. *)
Theorem C5_live_new_event_drops_detailed_odds :
  fmap m_odds (matches (live_processChangedEvents c5_fetch c5_config [c5_event]) !! 100)
    = Some ∅ /\
  has_key (live_normalize "S" c5_bets) "fullTimeResultHomeWin" = true /\
  fmap m_odds (matches (pre_processChangedEvents c5_fetch c5_config [c5_event]) !! 100)
    = Some (pre_normalize "S" c5_bets).
Proof. vm_compute. repeat split. Qed.

(* ------------------------------------------------------------------ *)
(** ** Storage fallback *)

Lemma merge_some (ms : list Match) (a : list Match) :
  exists l, fold_left (fun acc m => Some (upsert_by_id m (default [] acc))) ms (Some a) = Some l.
Proof.
  revert a. induction ms as [|m ms IH]; intros a; simpl; [eauto | apply IH].
Qed.

Lemma saveToPath_nonempty (path : string) (ms : list Match) (s : DataStorage) :
  ms <> [] -> exists s2, saveToPath path ms s = Some s2 /\
    redisService s2 = redisService s /\ storageType s2 = storageType s /\
    redisAvailable s2 = redisAvailable s.
Proof.
  intros Hne. unfold saveToPath.
  destruct ms as [|m ms]; [congruence|]. simpl.
  destruct (merge_some ms (upsert_by_id m (default [] (match files s !! file_key s path with
      | Some (Parsed d) => d | _ => None end)))) as [l Hl].
  rewrite Hl. eexists. split; [reflexivity|]. repeat split.
Qed.

(** The collectors hand a snapshot to the gateway only through
    [saveProcessedData], which skips an empty store. *)
Lemma saveProcessedData_nonempty (c : Config) (ms : list Match) :
  Service.saveProcessedData c = Some ms -> ms <> [].
Proof.
  unfold Service.saveProcessedData.
  destruct (Nat.eqb_spec (size (matches c)) 0) as [_|Hs]; intros H; [discriminate|].
  injection H as <-. intros Hm. apply Hs.
  apply map_eq_nil in Hm. apply map_to_list_empty_iff in Hm. rewrite Hm.
  apply map_size_empty.
Qed.

(** C6: a failed initialisation leaves the gateway in file mode
    ([redisAvailable] false, [getStorageType] "file") with the cache
    client's [connectionFailed] set; from a gateway in file mode, every
    snapshot a collector saves ([saveProcessedData]'s, through any of the
    three saves) goes to the file backend, succeeds, and leaves the gateway
    in file mode with the same storage type and cache client, so the same
    holds for the next save; and a cache client whose [connectionFailed] is
    set never connects again. *)
Theorem C6_file_fallback :
  (forall s : DataStorage,
     redisAvailable (initialize false s) = false /\
     getStorageType (initialize false s) = "file"%string /\
     connectionFailed (redisService (initialize false s)) = true) /\
  (forall (s : DataStorage) (f : Feed) (c : Config) (ms : list Match),
     redisAvailable s = false -> Service.saveProcessedData c = Some ms ->
     exists s2, save f ms s = (FileBackend, Some s2) /\
       redisAvailable s2 = false /\ getStorageType s2 = getStorageType s /\
       redisService s2 = redisService s) /\
  (forall (b : bool) (r : Redis), connectionFailed r = true -> connect b r = (r, false)).
Proof.
  split; [|split].
  - intros s. unfold initialize, connect.
    destruct (connectionFailed (redisService s)) eqn:E; simpl; auto.
  - intros s f c ms Ha Hms. unfold save, use_redis. rewrite Ha. simpl.
    destruct (saveToPath_nonempty (feed_path f s) ms s (saveProcessedData_nonempty c ms Hms))
      as (s2 & -> & Hr & Ht & Hav).
    exists s2. unfold getStorageType. rewrite Hav, Ht, Hr. auto.
  - intros b r H. unfold connect. rewrite H. reflexivity.
Qed.

Lemma C6_file_fallback_witness :
  exists s2, save LiveFeed [c2_match] (initialize false c6_storage) = (FileBackend, Some s2) /\
    redisAvailable s2 = false /\
    getStorageType s2 = getStorageType (initialize false c6_storage) /\
    redisService s2 = redisService (initialize false c6_storage).
Proof.
  destruct C6_file_fallback as [H1 [H2 _]].
  apply (H2 _ LiveFeed c2_config); [apply H1 | vm_compute; reflexivity].
Defined.

(* ------------------------------------------------------------------ *)
(** ** Odds merge *)

Ltac writes_tac :=
  repeat case_match;
  first [ left; reflexivity
        | right; left; do 2 eexists; split; [|reflexivity]; reflexivity
        | right; right; do 3 eexists; split; [|reflexivity]; reflexivity ].

Lemma live_updateMatchOdds_writes ms bt on sv nv bid o :
  writes o (live_updateMatchOdds ms bt on sv nv bid o).
Proof. unfold writes, live_updateMatchOdds. cbv zeta. writes_tac. Qed.

Lemma pre_updateMatchOdds_writes ms bt on sv nv bid o :
  writes o (pre_updateMatchOdds ms bt on sv nv bid o).
Proof. unfold writes, pre_updateMatchOdds. cbv zeta. writes_tac. Qed.

Lemma writes_has_key (o o' : odds) (k : string) :
  writes o o' -> has_key o k = true -> has_key o' k = true.
Proof.
  unfold has_key. rewrite !bool_decide_eq_true.
  intros [-> | [(k' & p & _ & ->) | (k' & sub & p & _ & ->)]] H; [exact H | |].
  - unfold set_single. destruct (decide (k' = k)) as [<- | Hne].
    + rewrite lookup_insert_eq. eauto.
    + rewrite lookup_insert_ne by done. exact H.
  - unfold set_line.
    destruct (o !! k'); (destruct (decide (k' = k)) as [<- | Hne];
      [rewrite lookup_insert_eq; eauto | rewrite lookup_insert_ne by done; exact H]).
Qed.

Lemma writes_has_line (o o' : odds) (k sub : string) :
  writes o o' -> is_line_key k = true -> has_line o k sub = true ->
  has_line o' k sub = true.
Proof.
  unfold has_line.
  intros [-> | [(k' & p & Hk' & ->) | (k' & sub' & p & _ & ->)]] Hk H; [exact H | |].
  - unfold set_single. destruct (decide (k' = k)) as [<- | Hne]; [congruence|].
    rewrite lookup_insert_ne by done. exact H.
  - unfold set_line. destruct (decide (k' = k)) as [<- | Hne].
    + destruct (o !! k') as [e|]; [|discriminate].
      rewrite lookup_insert_eq. simpl.
      apply bool_decide_eq_true in H. apply bool_decide_eq_true.
      destruct (decide (sub' = sub)) as [<- | Hs].
      * rewrite lookup_insert_eq. eauto.
      * rewrite lookup_insert_ne by done. exact H.
    + destruct (o !! k'); rewrite lookup_insert_ne by done; exact H.
Qed.

Lemma writes_frame (o o' : odds) :
  writes o o' -> exists k, forall k', k' <> k -> o' !! k' = o !! k'.
Proof.
  intros [-> | [(k & p & _ & ->) | (k & sub & p & _ & ->)]].
  - exists ""%string. reflexivity.
  - exists k. intros k' Hne. unfold set_single. apply lookup_insert_ne. congruence.
  - exists k. intros k' Hne. unfold set_line.
    destruct (o !! k); apply lookup_insert_ne; congruence.
Qed.

Lemma keeps_refl (m : Match) : keeps m m.
Proof. split; auto. Qed.

Lemma keeps_trans (m1 m2 m3 : Match) : keeps m1 m2 -> keeps m2 m3 -> keeps m1 m3.
Proof. intros [H1 H2] [H3 H4]. split; auto. Qed.

Lemma keeps_writes (m : Match) (o : odds) : writes (m_odds m) o -> keeps m (set_odds m o).
Proof.
  intros W. split; simpl.
  - intros k. apply writes_has_key, W.
  - intros k sub. apply writes_has_line, W.
Qed.

Section Delta.
Variable upd : Updater.
Hypothesis upd_writes : forall ms bt on sv nv bid o, writes o (upd ms bt on sv nv bid o).

Lemma changedOutcome_keeps (c : Config) (r : ChangedOutcome) (id : Z) (m : Match) :
  matches c !! id = Some m ->
  exists m', matches (changedOutcome upd c r) !! id = Some m' /\ keeps m m'.
Proof.
  intros H. unfold changedOutcome.
  destruct (co_valid r); simpl; [| exists m; split; [exact H | apply keeps_refl]].
  destruct (sport_selected c _); simpl; [| exists m; split; [exact H | apply keeps_refl]].
  destruct (matches c !! zat (co_id r) 4) as [m0|] eqn:E;
    [| exists m; split; [exact H | apply keeps_refl]].
  simpl. destruct (decide (zat (co_id r) 4 = id)) as [<- | Hne].
  - rewrite lookup_insert_eq. eexists; split; [reflexivity|].
    rewrite H in E. injection E as <-. apply keeps_writes, upd_writes.
  - rewrite lookup_insert_ne by done. exists m. split; [exact H | apply keeps_refl].
Qed.

Lemma processChangedBetOutcomes_keeps (rs : list ChangedOutcome) :
  forall (c : Config) (id : Z) (m : Match), matches c !! id = Some m ->
  exists m', matches (processChangedBetOutcomes upd c rs) !! id = Some m' /\ keeps m m'.
Proof.
  induction rs as [|r rs IH]; intros c id m H.
  - exists m. split; [exact H | apply keeps_refl].
  - unfold processChangedBetOutcomes. simpl.
    destruct (changedOutcome_keeps c r id m H) as (m1 & H1 & K1).
    destruct (IH _ _ _ H1) as (m2 & H2 & K2).
    exists m2. split; [exact H2 | eapply keeps_trans; eauto].
Qed.

End Delta.

Lemma pre_changedEvent_keeps_odds (fetch : DetailedOddsApi) (c : Config)
    (e : ChangedEvent) (m : Match) :
  matches c !! zat (ce_id e) 0 = Some m ->
  fmap m_odds (matches (pre_changedEvent fetch c e) !! zat (ce_id e) 0) = Some (m_odds m).
Proof.
  intros H. unfold pre_changedEvent.
  destruct (ce_valid e); simpl; [|rewrite H; reflexivity].
  destruct (sport_selected c _); simpl; [|rewrite H; reflexivity].
  rewrite H. simpl. rewrite lookup_insert_eq. reflexivity.
Qed.

(** C2 (counterexample): processing an event whose id is already stored
    ([processLiveEvent]'s [matches.set]) replaces the record, and a key the
    stored record had is gone when the event carries no bets. *)
Lemma C2_counterexample :
  has_key (m_odds c2_match) "fullTimeResultHomeWin" = true /\
  fmap (fun m => has_key (m_odds m) "fullTimeResultHomeWin")
    (matches (live_processLiveEvent c2_config (mkEvent 1 "Liga" 0 true false [])) !! 1)
    = Some false.
Proof. vm_compute. split; reflexivity. Qed.

(** C2 (amended): a phase-one upsert replaces the stored odds by the
    normalisation of the event's bets (live feed and pre-games); the
    delta-path updates keep every canonical key of every stored match and
    every line sub-key of its totals keys, and each single update changes at
    most one canonical key (both services); the pre-games refresh of an
    existing event leaves its odds as they were. *)
Theorem C2_amended :
  (forall c ev, fmap m_odds (matches (live_processLiveEvent c ev) !! ev_id ev)
     = Some (live_normalize (selectedSport c) (ev_bets ev))) /\
  (forall sport c ev d, fmap m_odds (matches (pre_processEvent sport c ev d) !! ev_id ev)
     = Some (pre_normalize sport (match d with Some bs => bs | None => ev_bets ev end))) /\
  (forall c rs id m, matches c !! id = Some m ->
     exists m', matches (live_processChangedBetOutcomes c rs) !! id = Some m' /\ keeps m m') /\
  (forall c rs id m, matches c !! id = Some m ->
     exists m', matches (pre_processChangedBetOutcomes c rs) !! id = Some m' /\ keeps m m') /\
  (forall ms bt on sv nv bid o, exists k, forall k', k' <> k ->
     live_updateMatchOdds ms bt on sv nv bid o !! k' = o !! k') /\
  (forall ms bt on sv nv bid o, exists k, forall k', k' <> k ->
     pre_updateMatchOdds ms bt on sv nv bid o !! k' = o !! k') /\
  (forall fetch c e m, matches c !! zat (ce_id e) 0 = Some m ->
     fmap m_odds (matches (pre_changedEvent fetch c e) !! zat (ce_id e) 0) = Some (m_odds m)).
Proof.
  split; [|split; [|split; [|split; [|split; [|split]]]]].
  - intros c ev. unfold live_processLiveEvent. simpl. rewrite lookup_insert_eq. reflexivity.
  - intros sport c ev d. unfold pre_processEvent. simpl. rewrite lookup_insert_eq. reflexivity.
  - intros c rs. apply processChangedBetOutcomes_keeps, live_updateMatchOdds_writes.
  - intros c rs. apply processChangedBetOutcomes_keeps, pre_updateMatchOdds_writes.
  - intros. apply writes_frame, live_updateMatchOdds_writes.
  - intros. apply writes_frame, pre_updateMatchOdds_writes.
  - apply pre_changedEvent_keeps_odds.
Qed.

Lemma C2_amended_witness :
  exists m', matches (live_processChangedBetOutcomes c2_config
               [mkChangedOutcome [1; 1; 0; 0; 1] [0; 5; 170] ["Konacan ishod"; "X"; ""]])
             !! 1 = Some m' /\ keeps c2_match m'.
Proof.
  destruct C2_amended as (_ & _ & H & _).
  apply H. reflexivity.
Defined.

(* ------------------------------------------------------------------ *)
(** ** Delta-path mapping against phase one *)

Lemma pre_agree : forall sport bid bt on v pick sv o, sv <> ""%string -> lc on "home" = false -> lc on "draw" = false -> lc on "away" = false ->
     pre_outcome sport (mkBet bid bt []) (mkOutcome on v pick None (Some sv)) o = pre_updateMatchOdds sport bt on (Some sv) v pick o.
Proof.
  intros sport bid bt on v pick sv o Hsv Hh Hd Ha.
  assert (Ht : Js.truthy (Some sv) = true) by (destruct sv; [congruence | reflexivity]).
  assert (Hd' : forall d, Js.or_default (Some sv) d = sv) by (destruct sv; [congruence | reflexivity]).
  unfold pre_outcome, pre_updateMatchOdds.
  destruct (String.eqb_spec sport "S") as [->|NS]; [|destruct (String.eqb_spec sport "B") as [->|NB];
    [|destruct (String.eqb_spec sport "T") as [->|NT]]].
  - unfold pre_football_outcome. cbn [b_betTypeName o_name o_odd o_betTypeOutcomeId o_sbv String.eqb Ascii.eqb Bool.eqb].
    rewrite Hh, Hd, Ha, !orb_false_r, !Hd', Ht. reflexivity.
  - unfold pre_basketball_outcome. cbn [b_betTypeName o_name o_odd o_betTypeOutcomeId o_sbv].
    rewrite Hh, Ha, !orb_false_r. reflexivity.
  - unfold pre_tennis_outcome. cbn [b_betTypeName o_name o_odd o_betTypeOutcomeId o_sbv].
    rewrite Hh, Ha, !orb_false_r. reflexivity.
  - reflexivity.
Qed.

Lemma live_agree : forall sport bid bt on v pick sv o, live_ids_agree sport bid bt = true ->
     live_outcome sport (mkBet bid bt []) (mkOutcome on v pick sv None) o = live_updateMatchOdds sport bt on sv v pick o.
Proof.
  intros sport bid bt on v pick sv o H.
  unfold live_ids_agree in H. unfold live_outcome, live_updateMatchOdds.
  cbn [b_betTypeId b_betTypeName o_name o_odd o_betTypeOutcomeId o_sBV].
  destruct (String.eqb_spec sport "S") as [->|NS]; [|destruct (String.eqb_spec sport "B") as [->|NB];
    [|destruct (String.eqb_spec sport "T") as [->|NT]]].
  - cbn [String.eqb Ascii.eqb Bool.eqb].
    destruct (bid =? 56), (bid =? 6), (bid =? 22),
      (String.eqb bt "Konacan ishod"), (String.eqb bt "1.pol - 1X2"),
      (String.eqb bt "Ukupno golova"), (String.eqb bt "1.pol - Ukupno"),
      (String.eqb bt "1.p - Ukupno");
      cbn [andb negb Bool.eqb] in H; try discriminate; reflexivity.
  - cbn [orb] in H. destruct (bid =? 56), (String.eqb bt "Pobednik");
      cbn [Bool.eqb] in H; try discriminate; reflexivity.
  - cbn [orb] in H. destruct (bid =? 56), (String.eqb bt "Pobednik");
      cbn [Bool.eqb] in H; try discriminate; reflexivity.
  - reflexivity.
Qed.

Lemma set_line_has_line (k sub : string) (p : pick) (o : odds) :
  has_line (set_line k sub p o) k sub = true.
Proof.
  unfold has_line, set_line.
  destruct (o !! k); rewrite lookup_insert_eq; simpl; apply bool_decide_eq_true.
  - rewrite lookup_insert_eq. eauto.
  - rewrite lookup_singleton_eq. eauto.
Qed.

(** C4 (code bug): in the live feed, phase one maps a football bet named
    ["1.pol - Ukupno"] (any bet-type id other than 56, 6 and 22) with a
    non-empty line value and an outcome name containing "manje" to the
    first-half under line ["1H_" ++ line], which the result holds; the
    delta path, given the same names, line, odd and outcome id, writes
    nothing, and only writes that line under the name ["1.p - Ukupno"].
    The pre-games service uses the one name ["1.pol - Ukupno golova"] in
    both paths, which then write the same thing. *)
Theorem C4_live_first_half_totals_dropped (bid : Z) (on sv : string) (v pick : Z) (o : odds) :
  bid <> 56 -> bid <> 6 -> bid <> 22 -> sv <> ""%string -> lc on "manje" = true ->
  live_outcome "S" (mkBet bid "1.pol - Ukupno" []) (mkOutcome on v pick (Some sv) None) o
    = set_line "firstHalfUnderTotal" ("1H_" ++ sv) (mkPick v pick) o /\
  has_line (set_line "firstHalfUnderTotal" ("1H_" ++ sv) (mkPick v pick) o)
    "firstHalfUnderTotal" ("1H_" ++ sv) = true /\
  live_updateMatchOdds "S" "1.pol - Ukupno" on (Some sv) v pick o = o /\
  live_updateMatchOdds "S" "1.p - Ukupno" on (Some sv) v pick o
    = set_line "firstHalfUnderTotal" ("1H_" ++ sv) (mkPick v pick) o /\
  (lc on "home" = false -> lc on "draw" = false -> lc on "away" = false ->
   pre_outcome "S" (mkBet bid "1.pol - Ukupno golova" []) (mkOutcome on v pick None (Some sv)) o
   = pre_updateMatchOdds "S" "1.pol - Ukupno golova" on (Some sv) v pick o).
Proof.
  intros H56 H6 H22 Hsv Hm.
  assert (Ht : Js.truthy (Some sv) = true) by (destruct sv; [congruence | reflexivity]).
  assert (Hd : Js.or_default (Some sv) "" = sv) by (destruct sv; [congruence | reflexivity]).
  split; [|split; [|split; [|split]]].
  - unfold live_outcome. cbn [b_betTypeId b_betTypeName o_name o_odd o_betTypeOutcomeId o_sBV].
    rewrite (proj2 (Z.eqb_neq _ _) H56), (proj2 (Z.eqb_neq _ _) H6), (proj2 (Z.eqb_neq _ _) H22).
    cbn [String.eqb Ascii.eqb Bool.eqb andb]. rewrite Ht, Hm, Hd. reflexivity.
  - apply set_line_has_line.
  - unfold live_updateMatchOdds. cbn [String.eqb Ascii.eqb Bool.eqb andb]. reflexivity.
  - unfold live_updateMatchOdds. cbn [String.eqb Ascii.eqb Bool.eqb andb].
    rewrite Ht, Hm, Hd. reflexivity.
  - intros Hh Hdr Ha. apply pre_agree; assumption.
Qed.

Lemma C4_live_first_half_totals_dropped_witness :
  live_outcome "S" (mkBet 0 "1.pol - Ukupno" []) (mkOutcome "Manje" 180 3 (Some "2.5"%string) None) ∅
    = set_line "firstHalfUnderTotal" ("1H_" ++ "2.5") (mkPick 180 3) ∅ /\
  has_line (set_line "firstHalfUnderTotal" ("1H_" ++ "2.5") (mkPick 180 3) ∅)
    "firstHalfUnderTotal" ("1H_" ++ "2.5") = true /\
  live_updateMatchOdds "S" "1.pol - Ukupno" "Manje" (Some "2.5"%string) 180 3 ∅ = ∅ /\
  live_updateMatchOdds "S" "1.p - Ukupno" "Manje" (Some "2.5"%string) 180 3 ∅
    = set_line "firstHalfUnderTotal" ("1H_" ++ "2.5") (mkPick 180 3) ∅ /\
  (lc "Manje" "home" = false -> lc "Manje" "draw" = false -> lc "Manje" "away" = false ->
   pre_outcome "S" (mkBet 0 "1.pol - Ukupno golova" []) (mkOutcome "Manje" 180 3 None (Some "2.5"%string)) ∅
   = pre_updateMatchOdds "S" "1.pol - Ukupno golova" "Manje" (Some "2.5"%string) 180 3 ∅).
Proof.
  apply (C4_live_first_half_totals_dropped 0 "Manje" "2.5" 180 3 ∅);
    [lia | lia | lia | discriminate | vm_compute; reflexivity].
Defined.

(* ------------------------------------------------------------------ *)
(** ** Save and read back *)
















End Props.


(* ================================================================== *)
(** * Further properties of the services *)

Module Extra.
Import Js Odds Norm Session Store Paging Storage Samples Service Num Api Codec Props.

Lemma digit_char_val (d : Z) : 0 <= d < 10 -> digit_val 10 (digit_char d) = Some d.
Proof.
  intros H. assert (d = 0 \/ d = 1 \/ d = 2 \/ d = 3 \/ d = 4 \/ d = 5 \/ d = 6 \/
    d = 7 \/ d = 8 \/ d = 9) as Hd by lia.
  repeat destruct Hd as [-> | Hd]; try reflexivity; subst; reflexivity.
Qed.

Lemma digit_cases (c : ascii) (d : Z) : digit_val 10 c = Some d ->
  c = "0"%char \/ c = "1"%char \/ c = "2"%char \/ c = "3"%char \/ c = "4"%char \/
  c = "5"%char \/ c = "6"%char \/ c = "7"%char \/ c = "8"%char \/ c = "9"%char.
Proof.
  destruct c as [[] [] [] [] [] [] [] []]; vm_compute; intros H;
    first [discriminate | tauto].
Qed.

Lemma to_digits_value (f : nat) : forall n acc a, 0 <= n < 10 ^ Z.of_nat f ->
  exists k : nat, digits_acc 10 a (to_digits f n acc) = digits_acc 10 (a * 10 ^ Z.of_nat k + n) acc.
Proof.
  induction f as [|f IH]; intros n acc a Hn.
  - simpl in Hn. exists 0%nat. simpl. replace n with 0 by lia. f_equal. lia.
  - simpl. pose proof (Z.mod_pos_bound n 10 ltac:(lia)) as Hm.
    destruct (n <? 10) eqn:E.
    + apply Z.ltb_lt in E. exists 1%nat. simpl.
      rewrite digit_char_val by lia. f_equal. rewrite Z.mod_small by lia. lia.
    + apply Z.ltb_ge in E.
      destruct (IH (n / 10) (String (digit_char (n mod 10)) acc) a) as [k Hk].
      { split. apply Z.div_pos; lia.
        apply Z.div_lt_upper_bound; [lia|]. rewrite Nat2Z.inj_succ, Z.pow_succ_r in Hn by lia. lia. }
      exists (S k). rewrite Hk. simpl. rewrite digit_char_val by lia. f_equal.
      rewrite Nat2Z.inj_succ, Z.pow_succ_r by lia.
      pose proof (Z.div_mod n 10 ltac:(lia)). lia.
Qed.

Lemma to_digits_shape (f : nat) : forall n acc, all_digits acc = true ->
  exists c r, to_digits (S f) n acc = String c r /\ is_Some (digit_val 10 c) /\ all_digits r = true.
Proof.
  assert (Hd : forall n, is_Some (digit_val 10 (digit_char (n mod 10)))).
  { intros n. rewrite digit_char_val; [eauto|]. pose proof (Z.mod_pos_bound n 10 ltac:(lia)); lia. }
  induction f as [|f IH]; intros n acc Hacc.
  - simpl. destruct (n <? 10); do 2 eexists; split; [reflexivity| |reflexivity| ];
      split; eauto.
  - cbn [to_digits]. destruct (n <? 10).
    + do 2 eexists; split; [reflexivity|]. split; eauto.
    + apply IH. simpl. rewrite Hacc, andb_true_r. apply bool_decide_eq_true. apply Hd.
Qed.

Lemma fuel_enough (m : Z) : 0 <= m -> m < 10 ^ Z.of_nat (S (Z.to_nat (Z.log2 m))).
Proof.
  intros Hm. rewrite Nat2Z.inj_succ, Z2Nat.id by apply Z.log2_nonneg.
  destruct (Z.eq_dec m 0) as [->|Hne]; [simpl; lia|].
  destruct (Z.log2_spec m ltac:(lia)) as [_ H2].
  eapply Z.lt_le_trans; [exact H2|].
  apply Z.pow_le_mono_l. lia.
Qed.

(** Parsing a digit string. *)
Lemma parse_digits (c : ascii) (r : string) :
  is_Some (digit_val 10 c) -> all_digits r = true ->
  parseInt (String c r) = Some (digits_acc 10 0 (String c r)) /\
  parseInt (String "-" (String c r)) = Some (- digits_acc 10 0 (String c r)).
Proof.
  intros [d Hc] Hr.
  destruct (digit_cases c d Hc) as [-> | Hc']; [|
    repeat destruct Hc' as [-> | Hc']; subst; split; unfold parseInt; simpl;
    (reflexivity || (f_equal; lia))].
  destruct r as [|x r'].
  - split; reflexivity.
  - simpl in Hr. apply andb_true_iff in Hr as [Hx _].
    apply bool_decide_eq_true in Hx as [dx Hx].
    destruct (digit_cases x dx Hx) as [-> | Hx'];
    [|repeat destruct Hx' as [-> | Hx']]; subst; split; unfold parseInt; simpl;
    (reflexivity || (f_equal; lia)).
Qed.

Lemma parse_plain (n : Z) :
  parseInt (if n <? 0 then String "-" (decimal (Z.abs n)) else decimal (Z.abs n)) = Some n.
Proof.
  unfold decimal.
  destruct (n <? 0) eqn:E.
  - apply Z.ltb_lt in E. rewrite Z.abs_neq by lia.
    destruct (to_digits_shape (Z.to_nat (Z.log2 (- n))) (- n) EmptyString eq_refl)
      as (c & r & Hs & Hc & Hr).
    rewrite Hs.
    rewrite (proj2 (parse_digits c r Hc Hr)). rewrite <- Hs.
    destruct (to_digits_value (S (Z.to_nat (Z.log2 (- n)))) (- n) EmptyString 0) as [k Hk].
    { split; [lia|]. apply fuel_enough. lia. }
    rewrite Hk. simpl. f_equal; lia.
  - apply Z.ltb_ge in E. rewrite Z.abs_eq by lia.
    destruct (to_digits_shape (Z.to_nat (Z.log2 n)) n EmptyString eq_refl)
      as (c & r & Hs & Hc & Hr).
    rewrite Hs.
    rewrite (proj1 (parse_digits c r Hc Hr)). rewrite <- Hs.
    destruct (to_digits_value (S (Z.to_nat (Z.log2 n))) n EmptyString 0) as [k Hk].
    { split; [lia|]. apply fuel_enough. lia. }
    rewrite Hk. simpl. f_equal; lia.
Qed.

Lemma to_double_small (m : Z) : 0 <= m < 2 ^ 53 -> to_double m = m.
Proof.
  intros Hm. unfold to_double.
  replace (Z.log2 m <=? 52) with true; [reflexivity|]. symmetry. apply Z.leb_le.
  destruct (Z.eq_dec m 0) as [->|Hne]; [simpl; lia|].
  assert (Z.log2 m < 53); [|lia].
  apply Z.log2_lt_pow2; lia.
Qed.

(** A safe integer prints as its plain decimal. *)
Lemma numberToString_safe (n : Z) : Z.abs n <= 9007199254740991 ->
  numberToString n = if n <? 0 then String "-" (decimal (Z.abs n)) else decimal (Z.abs n).
Proof.
  intros Hn. unfold numberToString, nonneg_toString.
  assert (H53 : 2 ^ 53 = 9007199254740992) by reflexivity.
  assert (H1024 : 9007199254740991 < 2 ^ 1024) by (vm_compute; reflexivity).
  assert (H21 : 9007199254740991 < 10 ^ 21) by (vm_compute; reflexivity).
  rewrite to_double_small by lia.
  replace (2 ^ 1024 <=? Z.abs n) with false by (symmetry; apply Z.leb_gt; lia).
  replace (Z.abs n <? 10 ^ 21) with true by (symmetry; apply Z.ltb_lt; lia).
  reflexivity.
Qed.

Lemma parse_print (n : Z) : Z.abs n <= 9007199254740991 -> parseInt (numberToString n) = Some n.
Proof. intros Hn. rewrite numberToString_safe by exact Hn. apply parse_plain. Qed.

(** From 10^21 the exponent form starts, and [parseInt] reads its first
    digits only; above 2^53 the number value is rounded. *)
Lemma numberToString_samples :
  numberToString 123 = "123"%string /\ numberToString (-5) = "-5"%string /\
  numberToString (2 ^ 53 + 1) = "9007199254740992"%string /\
  numberToString (10 ^ 21) = "1e+21"%string /\
  numberToString (2 ^ 70) = "1.1805916207174113e+21"%string /\
  numberToString (15 * 10 ^ 21) = "1.5e+22"%string /\
  parseInt (numberToString (10 ^ 21)) = Some 1.
Proof. vm_compute. repeat split. Qed.

Lemma only_store_refl (c : Config) : only_store c c.
Proof. exists (matches c). destruct c; reflexivity. Qed.

Lemma only_store_trans (c1 c2 c3 : Config) :
  only_store c1 c2 -> only_store c2 c3 -> only_store c1 c3.
Proof. intros [m1 ->] [m2 ->]. exists m2. reflexivity. Qed.

Lemma only_store_set (c : Config) ms : only_store c (set_matches c ms).
Proof. exists ms. reflexivity. Qed.

Lemma only_store_sport (c c' : Config) : only_store c c' -> selectedSport c' = selectedSport c.
Proof. intros [ms ->]. reflexivity. Qed.

Lemma only_store_wf_insert (c : Config) (k : Z) (m : Match) :
  store_wf c -> m_id m = k -> m_sport m = selectedSport c ->
  store_wf (set_matches c (<[k := m]> (matches c))).
Proof.
  intros Hwf Hid Hsp. unfold store_wf. simpl. apply map_Forall_insert_2; [split; assumption|].
  exact Hwf.
Qed.

(** Folding a step that only touches the store and keeps it well formed. *)
Lemma fold_store {A : Type} (f : Config -> A -> Config) :
  (forall c a, only_store c (f c a) /\ (store_wf c -> store_wf (f c a))) ->
  forall l c, only_store c (fold_left f l c) /\ (store_wf c -> store_wf (fold_left f l c)).
Proof.
  intros Hf l. induction l as [|a l IH]; intros c; simpl.
  - split; [apply only_store_refl | tauto].
  - destruct (Hf c a) as [H1 H2]. destruct (IH (f c a)) as [H3 H4].
    split; [eapply only_store_trans; eassumption | tauto].
Qed.

Lemma live_processLiveEvent_store (c : Config) (ev : Event) :
  only_store c (live_processLiveEvent c ev) /\
  (store_wf c -> store_wf (live_processLiveEvent c ev)).
Proof.
  split; [apply only_store_set|]. intros Hwf. apply only_store_wf_insert; auto.
Qed.

Lemma pre_processEvent_store (sport : string) (c : Config) (ev : Event) d :
  sport = selectedSport c ->
  only_store c (pre_processEvent sport c ev d) /\
  (store_wf c -> store_wf (pre_processEvent sport c ev d)).
Proof.
  intros Hs. split; [apply only_store_set|]. intros Hwf. apply only_store_wf_insert; auto.
Qed.

Lemma sport_selected_eq (c : Config) (id : Z) (sp : string) :
  sport_selected c id = true -> sportMapping id = Some sp -> sp = selectedSport c.
Proof.
  unfold sport_selected. intros H1 H2. apply bool_decide_eq_true in H1. congruence.
Qed.

Lemma live_changedEvent_store fetch (c : Config) (e : ChangedEvent) :
  only_store c (live_changedEvent fetch c e) /\
  (store_wf c -> store_wf (live_changedEvent fetch c e)).
Proof.
  unfold live_changedEvent.
  destruct (negb (ce_valid e)); [split; [apply only_store_refl|tauto]|].
  destruct (negb (sport_selected c _)); [split; [apply only_store_refl|tauto]|].
  case_bool_decide; [split; [apply only_store_refl|tauto]|].
  apply live_processLiveEvent_store.
Qed.

Lemma pre_changedEvent_store fetch (c : Config) (e : ChangedEvent) :
  only_store c (pre_changedEvent fetch c e) /\
  (store_wf c -> store_wf (pre_changedEvent fetch c e)).
Proof.
  unfold pre_changedEvent.
  destruct (negb (ce_valid e)); [split; [apply only_store_refl|tauto]|].
  destruct (negb (sport_selected c _)) eqn:Hsel; [split; [apply only_store_refl|tauto]|].
  apply negb_false_iff in Hsel.
  destruct (matches c !! _) as [m|] eqn:Hm.
  - split; [apply only_store_set|]. intros Hwf.
    pose proof (map_Forall_lookup_1 _ _ _ _ Hwf Hm) as [Hid Hsp].
    apply only_store_wf_insert; [exact Hwf | exact Hid | exact Hsp].
  - destruct (zat (ce_id e) 1 =? 1) eqn:E1;
      [apply pre_processEvent_store; apply (sport_selected_eq c _ _ Hsel);
       apply Z.eqb_eq in E1; rewrite E1; reflexivity|].
    destruct (zat (ce_id e) 1 =? 2) eqn:E2;
      [apply pre_processEvent_store; apply (sport_selected_eq c _ _ Hsel);
       apply Z.eqb_eq in E2; rewrite E2; reflexivity|].
    destruct (zat (ce_id e) 1 =? 3) eqn:E3;
      [apply pre_processEvent_store; apply (sport_selected_eq c _ _ Hsel);
       apply Z.eqb_eq in E3; rewrite E3; reflexivity|].
    split; [apply only_store_refl|tauto].
Qed.

Lemma changedOutcome_store upd (c : Config) (r : ChangedOutcome) :
  only_store c (changedOutcome upd c r) /\
  (store_wf c -> store_wf (changedOutcome upd c r)).
Proof.
  unfold changedOutcome.
  destruct (negb (co_valid r)); [split; [apply only_store_refl|tauto]|].
  destruct (negb (sport_selected c _)); [split; [apply only_store_refl|tauto]|].
  destruct (matches c !! _) as [m|] eqn:Hm; [|split; [apply only_store_refl|tauto]].
  split; [apply only_store_set|]. intros Hwf.
  pose proof (map_Forall_lookup_1 _ _ _ _ Hwf Hm) as [Hid Hsp].
  apply only_store_wf_insert; [exact Hwf | exact Hid | exact Hsp].
Qed.

Lemma processLiveEvents_store (c : Config) (t : list LiveFeedSport) :
  only_store c (processLiveEvents c t) /\
  (store_wf c -> store_wf (processLiveEvents c t)).
Proof.
  unfold processLiveEvents. apply fold_store. intros c1 sport.
  destruct (negb (sport_selected c1 _)); [split; [apply only_store_refl|tauto]|].
  apply fold_store. intros c2 region. apply fold_store. intros c3 comp.
  apply fold_store. intros c4 ev. destruct (live_wanted ev);
    [apply live_processLiveEvent_store | split; [apply only_store_refl|tauto]].
Qed.

Lemma updateCacheChanges_store pe po (s : Svc) r :
  (forall c es, only_store c (pe c es) /\ (store_wf c -> store_wf (pe c es))) ->
  (forall c rs, only_store c (po c rs) /\ (store_wf c -> store_wf (po c rs))) ->
  only_store (cfg s) (cfg (updateCacheChanges pe po s r)) /\
  (store_wf (cfg s) -> store_wf (cfg (updateCacheChanges pe po s r))) /\
  cacheUpdateTimer (updateCacheChanges pe po s r) = cacheUpdateTimer s.
Proof.
  intros He Ho. unfold updateCacheChanges.
  destruct (negb (isRunning (cfg s))); [split; [apply only_store_refl|tauto]|].
  destruct r as [r|]; [|split; [apply only_store_refl|tauto]]. simpl.
  destruct (0 <? length (changedEvents r))%nat, (0 <? length (changedBetOutcomes r))%nat;
  repeat match goal with
  | |- context [pe ?c ?es] => destruct (He c es); clear He
  | |- context [po ?c ?es] => destruct (Ho c es); clear Ho
  end; (split; [|split; [|reflexivity]]);
  try (eapply only_store_trans; eassumption); try assumption; try apply only_store_refl; tauto.
Qed.

Lemma start_good (allowed : list Z) (c : Config) (i : Z) (sp : string) :
  leagues c = ∅ -> in_slist (selectedSport c) ALLOWED_SPORTS = true -> store_wf c ->
  let c' := fst (start allowed c i sp) in
  leagues c' = ∅ /\ in_slist (selectedSport c') ALLOWED_SPORTS = true /\ store_wf c'.
Proof.
  intros H1 H2 H3. unfold start.
  destruct (isRunning c); [simpl; auto|].
  destruct (negb (in_slist sp ALLOWED_SPORTS)) eqn:Hs; [simpl; auto|].
  destruct (negb (in_list i allowed)); [simpl; auto|].
  simpl. apply negb_false_iff in Hs. split; [reflexivity|]. split; [exact Hs|].
  apply map_Forall_empty.
Qed.

Lemma stop_good (s : Svc) :
  leagues (cfg s) = ∅ -> in_slist (selectedSport (cfg s)) ALLOWED_SPORTS = true -> store_wf (cfg s) ->
  let c' := cfg (fst (stop s)) in
  leagues c' = ∅ /\ in_slist (selectedSport c') ALLOWED_SPORTS = true /\ store_wf c'.
Proof.
  intros H1 H2 H3. unfold stop. destruct (negb (isRunning (cfg s))); simpl; auto.
Qed.

Lemma only_store_good (c c' : Config) :
  only_store c c' -> (store_wf c -> store_wf c') ->
  leagues c = ∅ -> in_slist (selectedSport c) ALLOWED_SPORTS = true -> store_wf c ->
  leagues c' = ∅ /\ in_slist (selectedSport c') ALLOWED_SPORTS = true /\ store_wf c'.
Proof. intros [ms ->] Hw H1 H2 H3. simpl. auto. Qed.

Lemma live_step_good (s : Svc) (op : live_op) :
  leagues (cfg s) = ∅ -> in_slist (selectedSport (cfg s)) ALLOWED_SPORTS = true -> store_wf (cfg s) ->
  let c' := cfg (live_step s op) in
  leagues c' = ∅ /\ in_slist (selectedSport c') ALLOWED_SPORTS = true /\ store_wf c'.
Proof.
  intros H1 H2 H3. destruct op as [i sp|t|fetch r| |ev|rs|max|]; simpl.
  - apply start_good; assumption.
  - unfold collectLiveFeedData.
    destruct (length t =? 0)%nat; [simpl; auto|].
    destruct (length (extractEventIds (cfg s) t) =? 0)%nat; [simpl; auto|]. simpl.
    destruct (processLiveEvents_store (cfg s) t) as [Ho Hw].
    apply (only_store_good (cfg s)); assumption.
  - unfold live_updateCacheChanges.
    destruct (updateCacheChanges_store (live_processChangedEvents fetch)
      live_processChangedBetOutcomes s r) as [Ho [Hw _]].
    + intros c es. apply fold_store. intros. apply live_changedEvent_store.
    + intros c rs. apply fold_store. intros. apply changedOutcome_store.
    + apply (only_store_good (cfg s)); assumption.
  - apply stop_good; assumption.
  - destruct (live_processLiveEvent_store (cfg s) ev) as [Ho Hw].
    exact (only_store_good _ _ Ho Hw H1 H2 H3).
  - destruct (fold_store _ (changedOutcome_store live_updateMatchOdds) rs (cfg s)) as [Ho Hw].
    exact (only_store_good _ _ Ho Hw H1 H2 H3).
  - unfold set_token. destruct (truthy max); simpl; auto.
  - auto.
Qed.

Lemma processBatch_total {T R : Type} (p : T -> option R) (conc : nat) (items : list T) :
  (0 < conc)%nat ->
  forall fuel i results, (length items - i < fuel)%nat ->
  batch_loop p conc items fuel i results = Some (results ++ omap p (drop i items)).
Proof.
  intros Hc fuel. induction fuel as [|fuel IH]; intros i results Hf; [lia|].
  simpl. destruct (i <? length items)%nat eqn:Hi.
  - apply Nat.ltb_lt in Hi. rewrite IH by lia.
    rewrite <- app_assoc, <- omap_app. f_equal. f_equal. f_equal.
    rewrite <- drop_drop, take_drop. reflexivity.
  - apply Nat.ltb_ge in Hi. rewrite drop_ge by exact Hi. simpl. rewrite app_nil_r. reflexivity.
Qed.

Lemma processBatch_stuck {T R : Type} (p : T -> option R) (items : list T) :
  items <> [] -> forall fuel results, batch_loop p 0 items fuel 0 results = None.
Proof.
  intros Hne fuel. induction fuel as [|fuel IH]; intros results; simpl;
  (destruct (0 <? length items)%nat eqn:Hi;
   [|apply Nat.ltb_ge in Hi; destruct items; [congruence|simpl in Hi; lia]]);
  [reflexivity|apply IH].
Qed.

Lemma pre_fold_store (sport : string) (res : list (AdmiralBetEvent * option (list Bet))) :
  forall c, sport = selectedSport c ->
  only_store c (fold_left (fun c r => pre_processEvent sport c (ab_event r.1) r.2) res c) /\
  (store_wf c -> store_wf (fold_left (fun c r => pre_processEvent sport c (ab_event r.1) r.2) res c)).
Proof.
  induction res as [|r res IH]; intros c Hs; cbn [fold_left]; [split; [apply only_store_refl|tauto]|].
  destruct (pre_processEvent_store sport c (ab_event r.1) r.2 Hs) as [Ho Hw].
  destruct (IH (pre_processEvent sport c (ab_event r.1) r.2)) as [Ho' Hw'].
  { rewrite (only_store_sport _ _ Ho). exact Hs. }
  split; [exact (only_store_trans _ _ _ Ho Ho')|tauto].
Qed.

Lemma collectAdmiralBetData_store sportId sport fetch evs (c : Config) :
  sport = selectedSport c ->
  only_store c (fst (collectAdmiralBetData sportId sport fetch evs c)) /\
  (store_wf c -> store_wf (fst (collectAdmiralBetData sportId sport fetch evs c))).
Proof.
  intros Hs. unfold collectAdmiralBetData.
  destruct (length evs =? 0)%nat; [simpl; split; [apply only_store_refl|tauto]|].
  destruct (processBatchWithConcurrency _ _ _) as [res|]; [|simpl; split; [apply only_store_refl|tauto]].
  apply pre_fold_store. exact Hs.
Qed.

Lemma live_run_good (ops : list live_op) :
  let c := cfg (live_run ops) in
  leagues c = ∅ /\ in_slist (selectedSport c) ALLOWED_SPORTS = true /\ store_wf c.
Proof.
  unfold live_run. cut (forall s, leagues (cfg s) = ∅ -> in_slist (selectedSport (cfg s)) ALLOWED_SPORTS = true ->
    store_wf (cfg s) -> let c := cfg (fold_left live_step ops s) in
    leagues c = ∅ /\ in_slist (selectedSport c) ALLOWED_SPORTS = true /\ store_wf c).
  { intros H. apply H; [reflexivity|reflexivity|apply map_Forall_empty]. }
  induction ops as [|op ops IH]; intros s H1 H2 H3; simpl; [auto|].
  destruct (live_step_good s op H1 H2 H3) as (G1 & G2 & G3). apply IH; assumption.
Qed.

Lemma only_store_leagues (c c' : Config) : only_store c c' -> leagues c' = leagues c.
Proof. intros [ms ->]. reflexivity. Qed.

Lemma pre_wf_insert (c : Config) (k : Z) (m : Match) :
  pre_wf c -> m_id m = k -> in_slist (m_sport m) ALLOWED_SPORTS = true ->
  pre_wf (set_matches c (<[k := m]> (matches c))).
Proof.
  intros Hwf Hid Hsp. unfold pre_wf. simpl. apply map_Forall_insert_2; [split; assumption|].
  exact Hwf.
Qed.

Lemma pre_processEvent_wf (sport : string) (c : Config) (ev : Event) d :
  in_slist sport ALLOWED_SPORTS = true -> pre_wf c -> pre_wf (pre_processEvent sport c ev d).
Proof. intros Hs Hwf. apply pre_wf_insert; auto. Qed.

Lemma sportMapping_allowed (id : Z) (sp : string) :
  sportMapping id = Some sp -> in_slist sp ALLOWED_SPORTS = true.
Proof.
  unfold sportMapping.
  destruct (id =? 1); [intros [= <-]; reflexivity|].
  destruct (id =? 2); [intros [= <-]; reflexivity|].
  destruct (id =? 3); [intros [= <-]; reflexivity|discriminate].
Qed.

Lemma pre_processEventOf_ok (id : Z) (c : Config) (ev : Event) d :
  only_store c (pre_processEventOf id c ev d) /\
  (pre_wf c -> pre_wf (pre_processEventOf id c ev d)).
Proof.
  unfold pre_processEventOf. destruct (sportMapping id) as [sp|] eqn:E.
  - split; [apply only_store_set|]. apply pre_processEvent_wf.
    exact (sportMapping_allowed id sp E).
  - split; [apply only_store_refl|tauto].
Qed.

Lemma pre_changedEvent_wf fetch (c : Config) (e : ChangedEvent) :
  pre_wf c -> pre_wf (pre_changedEvent fetch c e).
Proof.
  intros Hwf. unfold pre_changedEvent.
  destruct (negb (ce_valid e)); [exact Hwf|].
  destruct (negb (sport_selected c _)); [exact Hwf|].
  destruct (matches c !! _) as [m|] eqn:Hm.
  - pose proof (map_Forall_lookup_1 _ _ _ _ Hwf Hm) as [Hid Hsp].
    apply pre_wf_insert; [exact Hwf | exact Hid | exact Hsp].
  - destruct (zat (ce_id e) 1 =? 1); [apply pre_processEvent_wf; [reflexivity | exact Hwf]|].
    destruct (zat (ce_id e) 1 =? 2); [apply pre_processEvent_wf; [reflexivity | exact Hwf]|].
    destruct (zat (ce_id e) 1 =? 3); [apply pre_processEvent_wf; [reflexivity | exact Hwf]|].
    exact Hwf.
Qed.

Lemma changedOutcome_wf upd (c : Config) (r : ChangedOutcome) :
  pre_wf c -> pre_wf (changedOutcome upd c r).
Proof.
  intros Hwf. unfold changedOutcome.
  destruct (negb (co_valid r)); [exact Hwf|].
  destruct (negb (sport_selected c _)); [exact Hwf|].
  destruct (matches c !! _) as [m|] eqn:Hm; [|exact Hwf].
  pose proof (map_Forall_lookup_1 _ _ _ _ Hwf Hm) as [Hid Hsp].
  apply pre_wf_insert; [exact Hwf | exact Hid | exact Hsp].
Qed.

Lemma fold_wf {A : Type} (f : Config -> A -> Config) :
  (forall c a, pre_wf c -> pre_wf (f c a)) ->
  forall l c, pre_wf c -> pre_wf (fold_left f l c).
Proof.
  intros Hf l. induction l as [|a l IH]; intros c Hc; simpl; [exact Hc|].
  apply IH, Hf, Hc.
Qed.

Lemma collectAdmiralBetData_wf sportId sport fetch evs (c : Config) :
  in_slist sport ALLOWED_SPORTS = true -> pre_wf c ->
  pre_wf (fst (collectAdmiralBetData sportId sport fetch evs c)).
Proof.
  intros Hs Hwf. unfold collectAdmiralBetData.
  destruct (length evs =? 0)%nat; [exact Hwf|].
  destruct (processBatchWithConcurrency _ _ _) as [res|]; [|exact Hwf].
  simpl. apply fold_wf; [|exact Hwf].
  intros c' r. apply pre_processEvent_wf, Hs.
Qed.

Lemma updateCacheChanges_wf pe po (s : Svc) r :
  (forall c es, pre_wf c -> pre_wf (pe c es)) ->
  (forall c rs, pre_wf c -> pre_wf (po c rs)) ->
  pre_wf (cfg s) -> pre_wf (cfg (updateCacheChanges pe po s r)).
Proof.
  intros He Ho Hwf. unfold updateCacheChanges.
  destruct (negb (isRunning (cfg s))); [exact Hwf|].
  destruct r as [r|]; [|exact Hwf]. simpl.
  destruct (0 <? length (changedEvents r))%nat, (0 <? length (changedBetOutcomes r))%nat;
    auto.
Qed.

Lemma pre_step_ok (s : Svc) (op : pre_op) :
  leagues (cfg s) = ∅ -> pre_wf (cfg s) ->
  leagues (cfg (pre_step s op)) = ∅ /\ pre_wf (cfg (pre_step s op)).
Proof.
  intros H1 H2. destruct op as [i sp|fetch evs|fetch r| |id ev d|fetch e|rs|max|]; simpl.
  - unfold startPreGames, start.
    destruct (isRunning (cfg s)); [simpl; auto|].
    destruct (negb (in_slist sp ALLOWED_SPORTS)); [simpl; auto|].
    destruct (negb (in_list i PREGAMES_INTERVALS)); [simpl; auto|].
    simpl. split; [reflexivity | apply map_Forall_empty].
  - unfold collectPreGamesData.
    destruct (String.eqb_spec (selectedSport (cfg s)) "B") as [E|_];
    [|destruct (String.eqb_spec (selectedSport (cfg s)) "T") as [E|_];
    [|destruct (String.eqb_spec (selectedSport (cfg s)) "S") as [E|_]]];
    try (simpl; auto; fail);
    (match goal with |- context [collectAdmiralBetData ?id ?sp ?f ?e ?c] =>
       destruct (collectAdmiralBetData_store id sp f e c (eq_sym E)) as [Ho _];
       pose proof (collectAdmiralBetData_wf id sp f e c eq_refl H2) as Hw;
       destruct (collectAdmiralBetData id sp f e c) as [c' saved] end;
     simpl in *; rewrite (only_store_leagues _ _ Ho); auto).
  - unfold pre_updateCacheChanges.
    destruct (updateCacheChanges_store (pre_processChangedEvents fetch)
      pre_processChangedBetOutcomes s r) as [Ho _].
    + intros c es. apply fold_store. intros. apply pre_changedEvent_store.
    + intros c rs. apply fold_store. intros. apply changedOutcome_store.
    + rewrite (only_store_leagues _ _ Ho). split; [exact H1|].
      apply updateCacheChanges_wf; [| |exact H2].
      * intros c es. apply fold_wf. intros. apply pre_changedEvent_wf; assumption.
      * intros c rs. apply fold_wf. intros. apply changedOutcome_wf; assumption.
  - unfold stop. destruct (negb (isRunning (cfg s))); simpl; auto.
  - destruct (pre_processEventOf_ok id (cfg s) ev d) as [Ho Hw].
    rewrite (only_store_leagues _ _ Ho). auto.
  - rewrite (only_store_leagues _ _ (proj1 (pre_changedEvent_store fetch (cfg s) e))).
    split; [exact H1|]. apply pre_changedEvent_wf, H2.
  - pose proof (only_store_leagues _ _
      (proj1 (fold_store _ (changedOutcome_store pre_updateMatchOdds) rs (cfg s)))) as Hl.
    split; [exact (eq_trans Hl H1)|]. apply fold_wf; [|exact H2].
    intros. apply changedOutcome_wf; assumption.
  - unfold set_token. destruct (truthy max); simpl; auto.
  - auto.
Qed.

Lemma pre_run_ok (ops : list pre_op) :
  leagues (cfg (pre_run ops)) = ∅ /\ pre_wf (cfg (pre_run ops)).
Proof.
  unfold pre_run. cut (forall s, leagues (cfg s) = ∅ -> pre_wf (cfg s) ->
    leagues (cfg (fold_left pre_step ops s)) = ∅ /\ pre_wf (cfg (fold_left pre_step ops s))).
  { intros H. apply H; [reflexivity|apply map_Forall_empty]. }
  induction ops as [|op ops IH]; intros s H1 H2; simpl; [auto|].
  destruct (pre_step_ok s op H1 H2) as [G1 G2]. apply IH; assumption.
Qed.

Lemma filter_all_true {A : Type} (P : A -> bool) (l : list A) :
  Forall (fun x => P x = true) l -> filter P l = l.
Proof.
  induction l as [|x l IH]; intros H; [reflexivity|].
  apply Forall_cons in H as [Hx H]. rewrite filter_cons.
  rewrite decide_True by (rewrite Hx; exact I). rewrite IH by exact H. reflexivity.
Qed.

Lemma filter_all_false {A : Type} (P : A -> bool) (l : list A) :
  Forall (fun x => P x = false) l -> filter P l = [].
Proof.
  induction l as [|x l IH]; intros H; [reflexivity|].
  apply Forall_cons in H as [Hx H]. rewrite filter_cons.
  rewrite decide_False by (rewrite Hx; auto). apply IH, H.
Qed.

Lemma of_sport_length (c : Config) (sp : string) : store_wf c ->
  length (of_sport sp c) = if String.eqb (selectedSport c) sp then size (matches c) else 0%nat.
Proof.
  intros Hwf. unfold of_sport.
  assert (Hall : Forall (fun m => m_sport m = selectedSport c) (map snd (map_to_list (matches c)))).
  { apply Forall_forall. intros m Hm. apply list_elem_of_In, in_map_iff in Hm as [[k m'] [<- Hkm]].
    apply list_elem_of_In, elem_of_map_to_list in Hkm. exact (proj2 (map_Forall_lookup_1 _ _ _ _ Hwf Hkm)). }
  destruct (String.eqb_spec (selectedSport c) sp) as [<-|Hne].
  - rewrite filter_all_true; [rewrite length_map, length_map_to_list; reflexivity|].
    eapply Forall_impl; [exact Hall|]. intros m Hm. simpl. rewrite Hm. apply String.eqb_refl.
  - rewrite filter_all_false; [reflexivity|].
    eapply Forall_impl; [exact Hall|]. intros m Hm. simpl. rewrite Hm.
    apply String.eqb_neq. exact Hne.
Qed.

Lemma status_counts (bk tk fk : list string) (c : Config) :
  leagues c = ∅ -> store_wf c ->
  let st := getStatus bk tk fk c in
  totalLeagues st = 0%nat /\
  basketball_total st = (if String.eqb (selectedSport c) "B" then totalMatches st else 0%nat) /\
  tennis_total st = (if String.eqb (selectedSport c) "T" then totalMatches st else 0%nat) /\
  football_total st = (if String.eqb (selectedSport c) "S" then totalMatches st else 0%nat).
Proof.
  intros Hl Hwf. simpl. rewrite Hl, !of_sport_length by exact Hwf.
  split; [reflexivity|]. auto.
Qed.

Lemma sport_split (l : list Match) :
  Forall (fun m => in_slist (m_sport m) ALLOWED_SPORTS = true) l ->
  (length (filter (fun m => String.eqb (m_sport m) "B") l) +
   length (filter (fun m => String.eqb (m_sport m) "T") l) +
   length (filter (fun m => String.eqb (m_sport m) "S") l) = length l)%nat.
Proof.
  induction l as [|m l IH]; intros H; [reflexivity|].
  apply Forall_cons in H as [Hm H]. rewrite !filter_cons.
  unfold in_slist, ALLOWED_SPORTS in Hm. cbn [existsb] in Hm.
  destruct (String.eqb (m_sport m) "B") eqn:EB, (String.eqb (m_sport m) "T") eqn:ET,
    (String.eqb (m_sport m) "S") eqn:ES;
    try (apply String.eqb_eq in EB); try (apply String.eqb_eq in ET);
    try (apply String.eqb_eq in ES); try congruence; try discriminate;
    repeat first [rewrite decide_True by exact I | rewrite decide_False by (intros [])];
    cbn [length]; rewrite <- (IH H); lia.
Qed.

Lemma pre_status_counts (bk tk fk : list string) (c : Config) :
  leagues c = ∅ -> pre_wf c ->
  let st := getStatus bk tk fk c in
  totalLeagues st = 0%nat /\
  (basketball_total st + tennis_total st + football_total st = totalMatches st)%nat.
Proof.
  intros Hl Hwf. simpl. rewrite Hl. split; [reflexivity|].
  unfold of_sport. rewrite sport_split.
  - rewrite length_map, length_map_to_list. reflexivity.
  - apply Forall_forall. intros m Hm. apply list_elem_of_In, in_map_iff in Hm as [[k m'] [<- Hkm]].
    apply list_elem_of_In, elem_of_map_to_list in Hkm.
    exact (proj2 (map_Forall_lookup_1 _ _ _ _ Hwf Hkm)).
Qed.

(** getStatus (both services), over every reachable service state, that
    is after any sequence of the synchronous segments of [live_op] /
    [pre_op]: [totalLeagues] is always 0, since no code path fills
    [leagues]. In the live feed the per-sport totals are [totalMatches] for
    the selected sport and 0 for the other two: an event is stored with
    the sport selected when it is stored, and a start empties the store.
    In pre-games every stored match counts for exactly one of the three
    sports, so the three totals add up to [totalMatches]; it need not be
    the selected one, as a collection of an earlier session that is still
    in flight after a restart stores its own sport. *)
Theorem X_status_counts (lops : list live_op) (pops : list pre_op) :
  (let c := cfg (live_run lops) in let st := live_getStatus c in
   totalLeagues st = 0%nat /\
   basketball_total st = (if String.eqb (selectedSport c) "B" then totalMatches st else 0%nat) /\
   tennis_total st = (if String.eqb (selectedSport c) "T" then totalMatches st else 0%nat) /\
   football_total st = (if String.eqb (selectedSport c) "S" then totalMatches st else 0%nat)) /\
  (let c := cfg (pre_run pops) in let st := pre_getStatus c in
   totalLeagues st = 0%nat /\
   (basketball_total st + tennis_total st + football_total st = totalMatches st)%nat).
Proof.
  destruct (live_run_good lops) as (L1 & _ & L3). destruct (pre_run_ok pops) as (P1 & P3).
  split; [apply status_counts | apply pre_status_counts]; assumption.
Qed.

Lemma stores_nil (Q : Z -> Match -> Prop) (c : Config) : stores Q c c [].
Proof.
  split; [apply only_store_refl|]. split; [reflexivity|].
  intros k Hk. apply not_elem_of_nil in Hk as [].
Qed.

Lemma fold_flat {A : Type} (Q : Z -> Match -> Prop) (c0 : Config)
    (g : Config -> A -> Config) (h : A -> list Z) :
  (forall c ids a, stores Q c0 c ids -> stores Q c0 (g c a) (ids ++ h a)) ->
  forall l c ids, stores Q c0 c ids -> stores Q c0 (fold_left g l c) (ids ++ flat_map h l).
Proof.
  intros Hg l. induction l as [|a l IH]; intros c ids H; simpl.
  - rewrite app_nil_r. exact H.
  - rewrite app_assoc. apply IH, Hg, H.
Qed.

Lemma stores_insert (Q : Z -> Match -> Prop) (c0 c : Config) (ids : list Z) (k : Z) (m : Match) :
  stores Q c0 c ids -> Q k m -> stores Q c0 (set_matches c (<[k := m]> (matches c))) (ids ++ [k]).
Proof.
  intros (Ho & Hn & Hi) Hq. split; [|split].
  - eapply only_store_trans; [exact Ho | apply only_store_set].
  - intros k' Hk'. simpl. apply not_elem_of_app in Hk' as [H1 H2].
    rewrite lookup_insert_ne; [apply Hn, H1|]. intros ->. apply H2. left.
  - intros k' Hk'. simpl. destruct (Z.eq_dec k k') as [<-|Hne].
    + exists m. rewrite lookup_insert_eq. split; [reflexivity|exact Hq].
    + rewrite lookup_insert_ne by exact Hne. apply Hi.
      apply elem_of_app in Hk' as [H|H]; [exact H|].
      apply list_elem_of_singleton in H. congruence.
Qed.

Lemma stores_sport (Q : Z -> Match -> Prop) (c0 c : Config) ids :
  stores Q c0 c ids -> selectedSport c = selectedSport c0.
Proof. intros [Ho _]. exact (only_store_sport _ _ Ho). Qed.

Lemma phase_one_stores (c : Config) (t : list LiveFeedSport) :
  stores (fun k m => m_id m = k /\ m_sport m = selectedSport c /\ m_blocked m = false)
    c (processLiveEvents c t) (extractEventIds c t).
Proof.
  unfold processLiveEvents, extractEventIds. rewrite <- (app_nil_l (flat_map _ t)).
  apply fold_flat; [|apply stores_nil].
  intros c1 ids sport H1.
  assert (Hsel : sport_selected c1 (lfs_id sport) = sport_selected c (lfs_id sport)).
  { unfold sport_selected. rewrite (stores_sport _ _ _ _ H1). reflexivity. }
  rewrite Hsel. destruct (negb (sport_selected c (lfs_id sport))).
  { rewrite app_nil_r. exact H1. }
  apply fold_flat; [|exact H1]. intros c2 ids2 region H2.
  apply fold_flat; [|exact H2]. intros c3 ids3 comp H3.
  apply fold_flat; [|exact H3]. intros c4 ids4 ev H4.
  unfold live_wanted. destruct (lte_isLive ev) eqn:Hl, (ev_isPlayable (lte_event ev)) eqn:Hp;
    simpl; try (rewrite app_nil_r; exact H4).
  unfold live_processLiveEvent. apply stores_insert; [exact H4|].
  simpl. rewrite (stores_sport _ _ _ _ H4), Hp. auto.
Qed.

(** LiveFeedService.processLiveEvents writes only the store. It leaves
    every id that extractEventIds did not select untouched. Every selected
    id ends up mapped to an unblocked match with that id and the session's
    sport. *)
Theorem X_live_phase_one (c : Config) (liveTreeData : list LiveFeedSport) :
  let c' := processLiveEvents c liveTreeData in
  let ids := extractEventIds c liveTreeData in
  only_store c c' /\
  (forall k, k ∉ ids -> matches c' !! k = matches c !! k) /\
  (forall k, k ∈ ids -> exists m, matches c' !! k = Some m /\
     m_id m = k /\ m_sport m = selectedSport c /\ m_blocked m = false).
Proof. exact (phase_one_stores c liveTreeData). Qed.

Lemma saveProcessedData_some (c : Config) (k : Z) :
  is_Some (matches c !! k) -> is_Some (saveProcessedData c).
Proof.
  intros [m Hm]. unfold saveProcessedData.
  destruct (size (matches c) =? 0)%nat eqn:E; [|eauto].
  apply Nat.eqb_eq, map_size_empty_iff in E. rewrite E, lookup_empty in Hm. discriminate.
Qed.

Lemma collect_no_event (liveTreeData : list LiveFeedSport) (s : Svc) :
  extractEventIds (cfg s) liveTreeData = [] -> collectLiveFeedData liveTreeData s = (s, None).
Proof.
  intros He. unfold collectLiveFeedData. rewrite He.
  destruct (length liveTreeData =? 0)%nat; reflexivity.
Qed.

(** LiveFeedService.collectLiveFeedData: with no live, playable event of
    the selected sport it returns at once, changing nothing and saving
    nothing. Otherwise it starts the delta-poll timer and saves a
    snapshot. *)
Theorem X_live_collect_timer (liveTreeData : list LiveFeedSport) (s : Svc) :
  (extractEventIds (cfg s) liveTreeData = [] ->
     collectLiveFeedData liveTreeData s = (s, None)) /\
  (extractEventIds (cfg s) liveTreeData <> [] ->
     is_Some (cacheUpdateTimer (fst (collectLiveFeedData liveTreeData s))) /\
     is_Some (snd (collectLiveFeedData liveTreeData s))).
Proof.
  split; [apply collect_no_event|]. unfold collectLiveFeedData.
  intros Hne. destruct liveTreeData as [|sp t] eqn:Ht; [contradiction Hne; reflexivity|].
  rewrite <- Ht in *. simpl length. rewrite Ht. simpl (length (_ :: _) =? 0)%nat. rewrite <- Ht.
  destruct (extractEventIds (cfg s) liveTreeData) as [|k ks] eqn:He; [contradiction|].
  simpl. split.
  - unfold live_startCacheUpdates. destruct (cacheUpdateTimer s); eauto.
  - destruct (phase_one_stores (cfg s) liveTreeData) as (_ & _ & Hin).
    rewrite He in Hin. destruct (Hin k ltac:(left)) as [m [Hm _]].
    eapply saveProcessedData_some. rewrite Hm. eauto.
Qed.

Lemma omap_some {A B : Type} (f : A -> B) (l : list A) :
  omap (fun x => Some (f x)) l = map f l.
Proof. induction l as [|x l IH]; [reflexivity|]. exact (f_equal (cons (f x)) IH). Qed.

Lemma collectAdmiralBetData_stores sportId sport fetch (evs : list AdmiralBetEvent) (c : Config) :
  sport = selectedSport c ->
  stores (fun k m => m_id m = k /\ m_sport m = selectedSport c)
    c (fst (collectAdmiralBetData sportId sport fetch evs c)) (map (fun e => ev_id (ab_event e)) evs).
Proof.
  intros Hs. unfold collectAdmiralBetData.
  destruct (length evs =? 0)%nat eqn:Hl.
  { apply Nat.eqb_eq, length_zero_iff_nil in Hl. subst. apply stores_nil. }
  unfold processBatchWithConcurrency. rewrite processBatch_total by lia.
  simpl. rewrite omap_some.
  replace (map (fun e => ev_id (ab_event e)) evs)
    with ([] ++ flat_map (fun r : AdmiralBetEvent * option (list Bet) => [ev_id (ab_event r.1)])
      (map (fun e => (e, fetch sportId (ab_regionId e) (ab_competitionId e) (ev_id (ab_event e)))) evs)).
  2:{ simpl. clear. induction evs as [|e evs IH]; simpl; [reflexivity|]. rewrite IH. reflexivity. }
  apply fold_flat; [|apply stores_nil].
  intros c1 ids r H1. unfold pre_processEvent. apply stores_insert; [exact H1|]. simpl. auto.
Qed.

(** PreGamesService.collectPreGamesData for a supported sport always
    starts the delta-poll timer. It writes only the store, leaves ids
    outside the fetched events untouched, and stores every fetched event
    under its id with the session's sport. *)
Theorem X_pregames_collect (fetch : DetailedOddsApi) (events : list AdmiralBetEvent) (s : Svc) :
  in_slist (selectedSport (cfg s)) ALLOWED_SPORTS = true ->
  let s' := fst (collectPreGamesData fetch events s) in
  is_Some (cacheUpdateTimer s') /\
  only_store (cfg s) (cfg s') /\
  (forall k, k ∉ map (fun e => ev_id (ab_event e)) events -> matches (cfg s') !! k = matches (cfg s) !! k) /\
  (forall e, e ∈ events -> exists m, matches (cfg s') !! ev_id (ab_event e) = Some m /\
     m_id m = ev_id (ab_event e) /\ m_sport m = selectedSport (cfg s)).
Proof.
  intros Hsel. unfold collectPreGamesData.
  assert (Hst : forall sid sp, sp = selectedSport (cfg s) ->
    let r := collectAdmiralBetData sid sp fetch events (cfg s) in
    let s' := fst (let '(c', saved) := r in
       (mkSvc c' (pregames_startCacheUpdates (cacheUpdateTimer s) c') (lastDeltaCacheNumber s), saved)) in
    is_Some (cacheUpdateTimer s') /\ only_store (cfg s) (cfg s') /\
    (forall k, k ∉ map (fun e => ev_id (ab_event e)) events -> matches (cfg s') !! k = matches (cfg s) !! k) /\
    (forall e, e ∈ events -> exists m, matches (cfg s') !! ev_id (ab_event e) = Some m /\
       m_id m = ev_id (ab_event e) /\ m_sport m = selectedSport (cfg s))).
  { intros sid sp Hsp. simpl.
    destruct (collectAdmiralBetData_stores sid sp fetch events (cfg s) Hsp) as (Ho & Hn & Hi).
    destruct (collectAdmiralBetData sid sp fetch events (cfg s)) as [c' saved]. simpl in *.
    split; [unfold pregames_startCacheUpdates; destruct (cacheUpdateTimer s); eauto|].
    split; [exact Ho|]. split; [exact Hn|].
    intros e He. destruct (Hi (ev_id (ab_event e))) as [m [Hm [Hid Hsp']]].
    { apply list_elem_of_In. apply (in_map (fun e => ev_id (ab_event e))).
      apply list_elem_of_In. exact He. }
    exists m. auto. }
  unfold in_slist, ALLOWED_SPORTS in Hsel. simpl in Hsel.
  destruct (String.eqb_spec (selectedSport (cfg s)) "B") as [E|_]; [apply Hst; auto|].
  destruct (String.eqb_spec (selectedSport (cfg s)) "T") as [E|_]; [apply Hst; auto|].
  destruct (String.eqb_spec (selectedSport (cfg s)) "S") as [E|_]; [apply Hst; auto|].
  discriminate.
Qed.

(** A valid Start followed by a live-tree collection with no wanted event
    leaves the live feed running with no delta-poll timer and an empty
    store. *)
Theorem X_live_running_without_poll (collectionInterval : Z) (sport : string)
    (liveTreeData : list LiveFeedSport) :
  in_list collectionInterval LIVE_INTERVALS = true ->
  in_slist sport ALLOWED_SPORTS = true ->
  extractEventIds (mkConfig true collectionInterval sport ∅ ∅) liveTreeData = [] ->
  let s := live_run [LiveStart collectionInterval sport; LiveCollect liveTreeData] in
  isRunning (cfg s) = true /\ cacheUpdateTimer s = None /\ matches (cfg s) = ∅.
Proof.
  intros Hi Hs He.
  assert (Hst : fst (startLiveFeed (cfg live_init) collectionInterval sport)
                = mkConfig true collectionInterval sport ∅ ∅).
  { unfold startLiveFeed, start. cbn [cfg live_init isRunning]. rewrite Hs, Hi. reflexivity. }
  unfold live_run. cbn [fold_left live_step]. rewrite Hst.
  cbn [cacheUpdateTimer lastDeltaCacheNumber live_init].
  rewrite (collect_no_event liveTreeData
    (mkSvc (mkConfig true collectionInterval sport ∅ ∅) None None) He).
  simpl. auto.
Qed.

Lemma svc_eta (s : Svc) : mkSvc (cfg s) (cacheUpdateTimer s) (lastDeltaCacheNumber s) = s.
Proof. destruct s; reflexivity. Qed.

Lemma saveProcessedData_members (c : Config) (l : list Match) :
  saveProcessedData c = Some l -> forall m, m ∈ l <-> exists k, matches c !! k = Some m.
Proof.
  unfold saveProcessedData. destruct (size (matches c) =? 0)%nat; [discriminate|].
  intros [= <-] m. split.
  - intros Hm. apply list_elem_of_In, in_map_iff in Hm as [[k m'] [<- Hkm]].
    apply list_elem_of_In, elem_of_map_to_list in Hkm. eauto.
  - intros [k Hk]. apply list_elem_of_In, in_map_iff. exists (k, m). split; [reflexivity|].
    apply list_elem_of_In, elem_of_map_to_list, Hk.
Qed.

Lemma saveProcessedData_none (c : Config) : saveProcessedData c = None <-> matches c = ∅.
Proof.
  unfold saveProcessedData. destruct (size (matches c) =? 0)%nat eqn:E.
  - apply Nat.eqb_eq, map_size_empty_iff in E. tauto.
  - split; [discriminate|]. intros Hm. rewrite Hm, map_size_empty in E. discriminate.
Qed.

(** stopLiveFeed / stopPreGames: the session is no longer running, and
    the store, the leagues and the sport are kept. When it was not
    running, nothing changes and nothing is saved. When it was running,
    the timer and the cache token are cleared, and a snapshot of exactly
    the stored matches is saved, unless the store is empty. *)
Theorem X_stop (s : Svc) :
  let s' := fst (stop s) in
  let saved := snd (stop s) in
  isRunning (cfg s') = false /\ matches (cfg s') = matches (cfg s) /\
  leagues (cfg s') = leagues (cfg s) /\ selectedSport (cfg s') = selectedSport (cfg s) /\
  (isRunning (cfg s) = false -> s' = s /\ saved = None) /\
  (isRunning (cfg s) = true ->
     cacheUpdateTimer s' = None /\ lastDeltaCacheNumber s' = None /\
     (saved = None <-> matches (cfg s) = ∅) /\
     (forall l, saved = Some l -> forall m, m ∈ l <-> exists k, matches (cfg s) !! k = Some m)).
Proof.
  unfold stop. destruct (isRunning (cfg s)) eqn:Hr; simpl.
  - split; [reflexivity|]. split; [reflexivity|]. split; [reflexivity|].
    split; [reflexivity|]. split; [discriminate|]. intros _.
    split; [reflexivity|]. split; [reflexivity|]. split.
    + exact (saveProcessedData_none (mkConfig false (collectionInterval (cfg s))
        (selectedSport (cfg s)) (matches (cfg s)) (leagues (cfg s)))).
    + exact (saveProcessedData_members (mkConfig false (collectionInterval (cfg s))
        (selectedSport (cfg s)) (matches (cfg s)) (leagues (cfg s)))).
  - split; [exact Hr|]. split; [reflexivity|]. split; [reflexivity|]. split; [reflexivity|].
    split; [auto|discriminate].
Qed.

(** updateCacheChanges after a stop changes nothing, whatever the cache
    response. *)
Theorem X_poll_after_stop pe po (s : Svc) (resp : option CacheChangesResponse) :
  updateCacheChanges pe po (fst (stop s)) resp = fst (stop s).
Proof.
  unfold stop. destruct (isRunning (cfg s)) eqn:Hr; simpl.
  - reflexivity.
  - unfold updateCacheChanges. rewrite Hr. reflexivity.
Qed.

Lemma poll_token pe po (s : Svc) resp :
  truthy (lastDeltaCacheNumber (updateCacheChanges pe po s resp)) = true \/
  lastDeltaCacheNumber (updateCacheChanges pe po s resp) = lastDeltaCacheNumber s.
Proof.
  unfold updateCacheChanges. destruct (negb (isRunning (cfg s))); [right; reflexivity|].
  destruct resp as [r|]; [|right; reflexivity]. simpl.
  destruct (truthy (maxDeltaCacheNumberAsString r)) eqn:E; [left; exact E|right; reflexivity].
Qed.

(** updateCacheChanges (both services) writes only the store and keeps
    its well-formedness: every key is the match's id and every match has
    the session's sport. It keeps the timer. The cache token either stays
    the same or becomes a truthy string. When the session is not running,
    nothing changes. *)
Theorem X_poll_frame (fetch : DetailedOddsApi) (s : Svc) (resp : option CacheChangesResponse) :
  (let s' := live_updateCacheChanges fetch s resp in
   only_store (cfg s) (cfg s') /\ (store_wf (cfg s) -> store_wf (cfg s')) /\
   cacheUpdateTimer s' = cacheUpdateTimer s /\
   (truthy (lastDeltaCacheNumber s') = true \/ lastDeltaCacheNumber s' = lastDeltaCacheNumber s) /\
   (isRunning (cfg s) = false -> s' = s)) /\
  (let s' := pre_updateCacheChanges fetch s resp in
   only_store (cfg s) (cfg s') /\ (store_wf (cfg s) -> store_wf (cfg s')) /\
   cacheUpdateTimer s' = cacheUpdateTimer s /\
   (truthy (lastDeltaCacheNumber s') = true \/ lastDeltaCacheNumber s' = lastDeltaCacheNumber s) /\
   (isRunning (cfg s) = false -> s' = s)).
Proof.
  unfold live_updateCacheChanges, pre_updateCacheChanges. split.
  - destruct (updateCacheChanges_store (live_processChangedEvents fetch)
      live_processChangedBetOutcomes s resp) as (Ho & Hw & Ht).
    + intros c es. apply fold_store. intros. apply live_changedEvent_store.
    + intros c rs. apply fold_store. intros. apply changedOutcome_store.
    + split; [exact Ho|]. split; [exact Hw|]. split; [exact Ht|]. split; [apply poll_token|].
      intros Hr. unfold updateCacheChanges. rewrite Hr. reflexivity.
  - destruct (updateCacheChanges_store (pre_processChangedEvents fetch)
      pre_processChangedBetOutcomes s resp) as (Ho & Hw & Ht).
    + intros c es. apply fold_store. intros. apply pre_changedEvent_store.
    + intros c rs. apply fold_store. intros. apply changedOutcome_store.
    + split; [exact Ho|]. split; [exact Hw|]. split; [exact Ht|]. split; [apply poll_token|].
      intros Hr. unfold updateCacheChanges. rewrite Hr. reflexivity.
Qed.

(** LiveFeedController.startLiveFeed with an interval in 1..300 and a
    supported sport answers 200 with no change while a session runs. When
    no session runs and the interval is outside the service's allow-list,
    it answers 500 and changes nothing. *)
Theorem X_live_controller_start (s : Svc) (i : Z) (sport : string) :
  (1 <= i <= 300) -> in_slist sport ["S"; "B"; "T"]%string = true ->
  (isRunning (cfg s) = true ->
     live_startLiveFeed s (Some i) (Some sport) = (s, mkReply 200 true)) /\
  (isRunning (cfg s) = false -> in_list i LIVE_INTERVALS = false ->
     live_startLiveFeed s (Some i) (Some sport) = (s, mkReply 500 false)).
Proof.
  intros Hi Hs. unfold live_startLiveFeed. simpl default.
  replace ((i <? 1) || (300 <? i)) with false
    by (symmetry; apply orb_false_iff; split; apply Z.ltb_ge; lia).
  rewrite Hs. simpl negb. cbv iota.
  assert (Ha : in_slist sport ALLOWED_SPORTS = true).
  { unfold in_slist, ALLOWED_SPORTS in *. simpl in *.
    destruct (String.eqb sport "S"), (String.eqb sport "B"), (String.eqb sport "T"); simpl in *;
      auto; discriminate. }
  split.
  - intros Hr. unfold startLiveFeed, start. rewrite Hr. rewrite svc_eta. reflexivity.
  - intros Hr Hn. unfold startLiveFeed, start. rewrite Hr, Ha, Hn. simpl.
    rewrite svc_eta. reflexivity.
Qed.

(** PreGamesController.startPreGames with interval 120 (or none) and a
    supported sport stops any running session, then starts a fresh one
    with an empty store, and answers 200. *)
Theorem X_pregames_controller_restart (s : Svc) (i : option Z) (sport : string) :
  default 120 i = 120 -> in_slist sport ["B"; "T"; "S"]%string = true ->
  let r := pre_startPreGames s i (Some sport) in
  r.2 = mkReply 200 true /\ isRunning (cfg r.1) = true /\ selectedSport (cfg r.1) = sport /\
  collectionInterval (cfg r.1) = 120 /\ matches (cfg r.1) = ∅ /\ leagues (cfg r.1) = ∅.
Proof.
  intros Hi Hs. unfold pre_startPreGames. rewrite Hi. simpl default. rewrite Hs.
  assert (Ha : in_slist sport ALLOWED_SPORTS = true).
  { unfold in_slist, ALLOWED_SPORTS in *. simpl in *.
    destruct (String.eqb sport "S"), (String.eqb sport "B"), (String.eqb sport "T"); simpl in *;
      auto; discriminate. }
  assert (Hr : isRunning (cfg (if isRunning (cfg s) then fst (stop s) else s)) = false).
  { destruct (isRunning (cfg s)) eqn:E; [|exact E]. unfold stop. rewrite E. reflexivity. }
  simpl (negb (in_list 120 [120])). cbv iota. simpl negb. cbv iota.
  destruct (if isRunning (cfg s) then fst (stop s) else s) as [c1 t1 k1]. simpl in Hr |- *.
  unfold startPreGames, start. rewrite Hr, Ha. simpl. repeat split.
Qed.

(** The getMatchById controllers on the decimal form of a safe integer
    id: 200 with the stored match, or 404. Safe integers are those of
    magnitude at most 2^53 - 1, where JavaScript numbers are exact. *)
Theorem X_getMatchById_decimal (ms : gmap Z Match) (n : Z) :
  Z.abs n <= 9007199254740991 ->
  getMatchById ms (Num.numberToString n) =
    match ms !! n with
    | Some m => (mkReply 200 true, Some m)
    | None => (mkReply 404 false, None)
    end.
Proof. intros Hn. unfold getMatchById. rewrite parse_print by exact Hn. reflexivity. Qed.

(** Every match stored in a reachable state of either service (after any
    sequence of the synchronous segments of [live_op] / [pre_op]), with a
    safe integer key, is returned by getMatchById on its id. *)
Theorem X_stored_match_by_id (lops : list live_op) (pops : list pre_op) :
  (forall k m, matches (cfg (live_run lops)) !! k = Some m -> Z.abs k <= 9007199254740991 ->
     getMatchById (matches (cfg (live_run lops))) (Num.numberToString (m_id m)) = (mkReply 200 true, Some m)) /\
  (forall k m, matches (cfg (pre_run pops)) !! k = Some m -> Z.abs k <= 9007199254740991 ->
     getMatchById (matches (cfg (pre_run pops))) (Num.numberToString (m_id m)) = (mkReply 200 true, Some m)).
Proof.
  destruct (live_run_good lops) as (_ & _ & L). destruct (pre_run_ok pops) as (_ & P).
  split; intros k m Hk Hb; unfold getMatchById;
    [rewrite (proj1 (map_Forall_lookup_1 _ _ _ _ L Hk)) | rewrite (proj1 (map_Forall_lookup_1 _ _ _ _ P Hk))];
    rewrite parse_print by exact Hb; rewrite Hk; reflexivity.
Qed.

Ltac field_cases Hk :=
  repeat (apply elem_of_cons in Hk as [->|Hk]; [reflexivity|]); apply elem_of_nil in Hk as [].

Lemma number_field_read (o : obj) (k : string) : k ∈ NUMBER_FIELDS ->
  fromHash (hashData o) !! k =
    Some (match Num.parseInt (safeToString (js_or (get o k) (JNum 0))) with
          | Some n => JNum n | None => JNaN end).
Proof. intros Hk. unfold NUMBER_FIELDS in Hk. field_cases Hk. Qed.

Lemma string_field_read (o : obj) (k : string) : k ∈ STRING_FIELDS ->
  fromHash (hashData o) !! k = Some (JStr (safeToString (get o k))).
Proof. intros Hk. unfold STRING_FIELDS in Hk. field_cases Hk. Qed.

Lemma boolean_field_read (o : obj) (k : string) : k ∈ BOOLEAN_FIELDS ->
  fromHash (hashData o) !! k =
    Some (JBool (bool_decide (Some (safeToString (def_undefined (get o k) (JBool false))) = Some "true"%string))).
Proof. intros Hk. unfold BOOLEAN_FIELDS in Hk. field_cases Hk. Qed.

Lemma announcement_read (o : obj) :
  fromHash (hashData o) !! "announcement"%string =
    Some (JStr (safeToString (def_undefined (get o "announcement") (JBool false)))).
Proof. reflexivity. Qed.

(** RedisService.saveMatches then getMatches, numeric fields (id,
    matchCode, kickOffTime, lastChangeTime, leagueId): a safe integer
    (magnitude at most 2^53 - 1) comes back unchanged. A falsy value (undefined, null, 0, NaN, false, '')
    comes back as 0. *)
Theorem X_redis_number_fields (o : obj) (k : string) :
  k ∈ NUMBER_FIELDS ->
  (forall n, Z.abs n <= 9007199254740991 -> get o k = JNum n ->
     fromHash (hashData o) !! k = Some (JNum n)) /\
  (js_truthy (get o k) = false -> fromHash (hashData o) !! k = Some (JNum 0)).
Proof.
  intros Hk. rewrite (number_field_read o k Hk). split.
  - intros n Hb Hn. rewrite Hn. unfold js_or. simpl.
    destruct (negb (n =? 0)) eqn:E.
    + unfold safeToString. rewrite parse_print by exact Hb. reflexivity.
    + apply negb_false_iff, Z.eqb_eq in E. subst. reflexivity.
  - intros Hf. unfold js_or. rewrite Hf. reflexivity.
Qed.

(** RedisService.saveMatches then getMatches, string fields: a string
    comes back unchanged, and undefined or null comes back as ''. *)
Theorem X_redis_string_fields (o : obj) (k : string) :
  k ∈ STRING_FIELDS ->
  (forall s, get o k = JStr s -> fromHash (hashData o) !! k = Some (JStr s)) /\
  (get o k = JUndefined \/ get o k = JNull -> fromHash (hashData o) !! k = Some (JStr "")).
Proof.
  intros Hk. rewrite (string_field_read o k Hk). split.
  - intros s Hs. rewrite Hs. reflexivity.
  - intros [H|H]; rewrite H; reflexivity.
Qed.

(** RedisService.saveMatches then getMatches, boolean fields (isLive,
    bettingAllowed, topMatch): a boolean comes back unchanged, and
    undefined comes back as false. *)
Theorem X_redis_boolean_fields (o : obj) (k : string) :
  k ∈ BOOLEAN_FIELDS ->
  (forall b, get o k = JBool b -> fromHash (hashData o) !! k = Some (JBool b)) /\
  (get o k = JUndefined -> fromHash (hashData o) !! k = Some (JBool false)).
Proof.
  intros Hk. rewrite (boolean_field_read o k Hk). split.
  - intros [] Hb; rewrite Hb; reflexivity.
  - intros H. rewrite H. reflexivity.
Qed.

(** RedisService.saveMatches then getMatches, announcement: a boolean
    comes back as the string 'true' or 'false'. Both strings are truthy, so
    a false announcement reads back truthy. undefined comes back as
    'false'. *)
Theorem X_redis_announcement (o : obj) :
  (forall b, get o "announcement"%string = JBool b ->
     fromHash (hashData o) !! "announcement"%string = Some (JStr (if b then "true" else "false")) /\
     js_truthy (default JUndefined (fromHash (hashData o) !! "announcement"%string)) = true) /\
  (get o "announcement"%string = JUndefined ->
     fromHash (hashData o) !! "announcement"%string = Some (JStr "false")).
Proof.
  rewrite announcement_read. split.
  - intros [] Hb; rewrite Hb; split; reflexivity.
  - intros H. rewrite H. reflexivity.
Qed.

(** PreGamesService.processBatchWithConcurrency returns the fulfilled
    results in the order of the items, dropping the rejected ones. With
    concurrency 0 and a non-empty array it never finishes. *)
Theorem X_processBatch (T R : Type) (items : list T) (p : T -> option R) (conc : nat) :
  processBatchWithConcurrency items p conc =
  if (conc =? 0)%nat && negb (length items =? 0)%nat then None else Some (omap p items).
Proof.
  unfold processBatchWithConcurrency. destruct conc as [|conc].
  - destruct items as [|x items]; [reflexivity|]. simpl (_ && _).
    apply processBatch_stuck. discriminate.
  - simpl (_ && _). rewrite processBatch_total by lia. reflexivity.
Qed.

Lemma batches_prefix pages total conc : (0 < conc)%nat ->
  forall fuel cur evs req, (cur <= total)%nat -> (total - cur < fuel)%nat ->
  exists n, (cur <= n <= total)%nat /\
    batches pages total conc fuel cur evs req =
      Some (evs ++ concat (map pages (seq cur (n - cur))), req ++ seq cur (n - cur)) /\
    ((n < total)%nat -> exists k, (cur <= k < n)%nat /\ pages k = []).
Proof.
  intros Hc fuel. induction fuel as [|fuel IH]; intros cur evs req Hle Hf; [lia|].
  destruct (decide (cur < total)%nat) as [Hlt|Hge].
  - rewrite batches_step by exact Hlt. cbv zeta.
    set (b := Nat.min conc (total - cur)).
    assert (Hb : (1 <= b /\ cur + b <= total)%nat) by (unfold b; lia).
    destruct (existsb _ _) eqn:He.
    + exists (cur + b)%nat. replace (cur + b - cur)%nat with b by lia.
      split; [lia|]. split; [reflexivity|]. intros _.
      apply existsb_exists in He as (evs' & Hin & Hz).
      apply in_map_iff in Hin as (k & <- & Hk). apply in_seq in Hk.
      exists k. split; [lia|]. apply Nat.eqb_eq, length_zero_iff_nil in Hz. exact Hz.
    + destruct (IH (cur + b)%nat (evs ++ concat (map pages (seq cur b)))
                  (req ++ seq cur b)) as (n & Hn & Heq & Hst); [lia|lia|].
      exists n. split; [lia|]. split.
      * rewrite Heq. replace (n - cur)%nat with (b + (n - (cur + b)))%nat by lia.
        rewrite seq_app, map_app, concat_app, !app_assoc. reflexivity.
      * intros Hn'. destruct (Hst Hn') as (k & Hk & Hp). exists k. split; [lia|exact Hp].
  - exists cur. rewrite Nat.sub_diag. split; [lia|]. split.
    + destruct fuel; simpl; (replace (cur <? total)%nat with false by (symmetry; apply Nat.ltb_ge; lia));
      rewrite !app_nil_r; reflexivity.
    + lia.
Qed.

(** PreGamesService.fetchPagesConcurrently with a positive concurrency
    requests exactly pages 0..n-1, for some n up to totalPages, and returns
    their items in page order. It stops before totalPages only after one
    of the requested pages came back empty. *)
Theorem X_fetchPages_prefix (pages : PageSource) (totalPages concurrency : nat) :
  (0 < concurrency)%nat ->
  exists n, (n <= totalPages)%nat /\
    fetchPagesConcurrently pages totalPages concurrency =
      Some (concat (map pages (seq 0 n)), seq 0 n) /\
    ((n < totalPages)%nat -> exists k, (k < n)%nat /\ pages k = []).
Proof.
  intros Hc. destruct (batches_prefix pages totalPages concurrency Hc (S totalPages) 0 [] [])
    as (n & Hn & Heq & Hst); [lia|lia|].
  exists n. split; [lia|]. split.
  - unfold fetchPagesConcurrently. rewrite Heq, Nat.sub_0_r. reflexivity.
  - intros H. destruct (Hst H) as (k & Hk & Hp). exists k. split; [lia|exact Hp].
Qed.

(** Redis *)
Lemma ins_all_union (ms : list Match) : forall A h : gmap Z RedisHash,
  fold_left (fun h m => <[m_id m := hash_of m]> h) ms (A ∪ h) =
  fold_left (fun h m => <[m_id m := hash_of m]> h) ms A ∪ h.
Proof.
  induction ms as [|m ms IH]; intros A h; [reflexivity|].
  simpl. rewrite insert_union_l. apply IH.
Qed.

Lemma ins_all_idem (ms : list Match) (h : gmap Z RedisHash) :
  let ins := fold_left (fun h m => <[m_id m := hash_of m]> h) ms in
  ins (ins h) = ins h.
Proof.
  intros ins.
  assert (E : forall B, ins B = ins ∅ ∪ B).
  { intros B. unfold ins. rewrite <- (ins_all_union ms ∅ B), map_empty_union. reflexivity. }
  rewrite (E (ins h)), (E h), map_union_assoc, map_union_idemp. reflexivity.
Qed.

Lemma in_list_true (i : Z) (l : list Z) : in_list i l = true <-> i ∈ l.
Proof.
  unfold in_list. rewrite existsb_exists, list_elem_of_In. split.
  - intros (x & Hx & E). apply Z.eqb_eq in E. subst. exact Hx.
  - intros H. exists i. split; [exact H|apply Z.eqb_refl].
Qed.

Lemma sadd_grows (ids : list Z) : forall acc x,
  x ∈ acc \/ x ∈ ids ->
  x ∈ fold_left (fun acc i => if in_list i acc then acc else acc ++ [i]) ids acc.
Proof.
  induction ids as [|i ids IH]; intros acc x Hx; simpl.
  - destruct Hx as [Hx|Hx]; [exact Hx|apply not_elem_of_nil in Hx as []].
  - apply IH. destruct (in_list i acc) eqn:E.
    + destruct Hx as [Hx|Hx]; [left; exact Hx|].
      apply elem_of_cons in Hx as [->|Hx]; [left; apply in_list_true, E|right; exact Hx].
    + destruct Hx as [Hx|Hx]; [left; apply elem_of_app; left; exact Hx|].
      apply elem_of_cons in Hx as [->|Hx].
      * left. apply elem_of_app. right. apply list_elem_of_singleton. reflexivity.
      * right. exact Hx.
Qed.

Lemma sadd_present (ids : list Z) : forall acc,
  (forall x, x ∈ ids -> x ∈ acc) ->
  fold_left (fun acc i => if in_list i acc then acc else acc ++ [i]) ids acc = acc.
Proof.
  induction ids as [|i ids IH]; intros acc H; [reflexivity|]. simpl.
  rewrite (proj2 (in_list_true i acc)) by (apply H; left).
  apply IH. intros x Hx. apply H. right. exact Hx.
Qed.

Lemma sAdd_idem (idx ids l : list Z) : sAdd idx ids = Some l -> sAdd l ids = Some l.
Proof.
  unfold sAdd. destruct ids as [|i ids]; [discriminate|]. intros H. injection H as <-.
  rewrite (sadd_present (i :: ids)); [reflexivity|].
  intros x Hx. apply (sadd_grows (i :: ids)). right. exact Hx.
Qed.

(** RedisService.saveMatches is idempotent: saving the same matches again
    changes neither the index set nor the hashes. *)
Theorem X_saveMatches_idempotent (ms : list Match) (r r' : Redis) :
  saveMatches ms r = Some r' -> saveMatches ms r' = Some r'.
Proof.
  unfold saveMatches. intros Hs.
  destruct (connectionFailed r) eqn:Hf; [discriminate|].
  destruct (isConnected r) eqn:Hc; [|discriminate].
  cbn [negb] in Hs.
  destruct (sAdd (r_index r) (map m_id ms)) as [l|] eqn:Ha; [|discriminate].
  injection Hs as <-. cbn [connectionFailed isConnected r_index r_hashes negb].
  rewrite (ins_all_idem ms (r_hashes r)), (sAdd_idem _ _ _ Ha). reflexivity.
Qed.

(* ------------------------------------------------------------------ *)
(** ** Instances of the properties above *)

Lemma X_live_phase_one_witness :
  exists m, matches (processLiveEvents c5_config
      [mkLiveFeedSport 1 [mkLiveFeedRegion [mkLiveFeedCompetition
         [mkLiveTreeEvent true (mkEvent 100 "Liga" 0 true false [])]]]]) !! 100 = Some m /\
    m_id m = 100 /\ m_blocked m = false.
Proof.
  destruct (X_live_phase_one c5_config
      [mkLiveFeedSport 1 [mkLiveFeedRegion [mkLiveFeedCompetition
         [mkLiveTreeEvent true (mkEvent 100 "Liga" 0 true false [])]]]]) as (_ & _ & H).
  destruct (H 100) as (m & Hm & Hid & _ & Hb).
  - apply list_elem_of_In. vm_compute. left. reflexivity.
  - exists m. split; [exact Hm|]. split; [exact Hid|exact Hb].
Defined.

Lemma X_live_collect_timer_witness :
  collectLiveFeedData [] (mkSvc c5_config None None) = (mkSvc c5_config None None, None) /\
  is_Some (cacheUpdateTimer (fst (collectLiveFeedData
      [mkLiveFeedSport 1 [mkLiveFeedRegion [mkLiveFeedCompetition
         [mkLiveTreeEvent true (mkEvent 100 "Liga" 0 true false [])]]]]
      (mkSvc c5_config None None)))).
Proof.
  split.
  - apply (proj1 (X_live_collect_timer [] (mkSvc c5_config None None))). reflexivity.
  - apply (proj2 (X_live_collect_timer
      [mkLiveFeedSport 1 [mkLiveFeedRegion [mkLiveFeedCompetition
         [mkLiveTreeEvent true (mkEvent 100 "Liga" 0 true false [])]]]]
      (mkSvc c5_config None None))).
    vm_compute. discriminate.
Defined.

Lemma X_pregames_collect_witness :
  is_Some (cacheUpdateTimer (fst (collectPreGamesData c5_fetch
      [mkAdmiralBetEvent 5 7 (mkEvent 100 "Liga" 0 true false [])]
      (mkSvc c5_config None None)))) /\
  exists m, matches (cfg (fst (collectPreGamesData c5_fetch
      [mkAdmiralBetEvent 5 7 (mkEvent 100 "Liga" 0 true false [])]
      (mkSvc c5_config None None)))) !! 100 = Some m /\ m_id m = 100.
Proof.
  destruct (X_pregames_collect c5_fetch
      [mkAdmiralBetEvent 5 7 (mkEvent 100 "Liga" 0 true false [])]
      (mkSvc c5_config None None)) as (Ht & _ & _ & He); [reflexivity|].
  split; [exact Ht|].
  destruct (He (mkAdmiralBetEvent 5 7 (mkEvent 100 "Liga" 0 true false []))) as (m & Hm & Hid & _).
  - left.
  - exists m. split; [exact Hm|exact Hid].
Defined.

Lemma X_live_running_without_poll_witness :
  let s := live_run [LiveStart 30 "S"; LiveCollect []] in
  isRunning (cfg s) = true /\ cacheUpdateTimer s = None /\ matches (cfg s) = ∅.
Proof. apply (X_live_running_without_poll 30 "S" []); reflexivity. Defined.

Lemma X_stop_witness :
  cacheUpdateTimer (fst (stop (mkSvc c2_config (Some 5000) (Some "7"%string)))) = None /\
  snd (stop (mkSvc c2_config (Some 5000) (Some "7"%string))) <> None.
Proof.
  destruct (X_stop (mkSvc c2_config (Some 5000) (Some "7"%string)))
    as (_ & _ & _ & _ & _ & H).
  destruct H as (Ht & _ & Hs & _); [reflexivity|].
  split; [exact Ht|].
  intros E. apply Hs in E. apply (map_size_empty_iff (matches c2_config)) in E. discriminate.
Defined.

Lemma X_poll_frame_witness :
  live_updateCacheChanges c5_fetch live_init
    (Some (mkCacheChangesResponse (Some "9"%string) [] [])) = live_init.
Proof.
  destruct (X_poll_frame c5_fetch live_init (Some (mkCacheChangesResponse (Some "9"%string) [] [])))
    as [(_ & _ & _ & _ & H) _].
  apply H. reflexivity.
Defined.

Lemma X_live_controller_start_witness :
  live_startLiveFeed (mkSvc c2_config (Some 5000) None) (Some 45) (Some "S"%string) =
    (mkSvc c2_config (Some 5000) None, mkReply 200 true) /\
  live_startLiveFeed live_init (Some 45) (Some "S"%string) = (live_init, mkReply 500 false).
Proof.
  split.
  - destruct (X_live_controller_start (mkSvc c2_config (Some 5000) None) 45 "S") as [H _];
      [lia|reflexivity|].
    apply H. reflexivity.
  - destruct (X_live_controller_start live_init 45 "S") as [_ H]; [lia|reflexivity|].
    apply H; reflexivity.
Defined.

Lemma X_pregames_controller_restart_witness :
  let r := pre_startPreGames (mkSvc c2_config (Some 5000) None) None (Some "T"%string) in
  r.2 = mkReply 200 true /\ isRunning (cfg r.1) = true /\ selectedSport (cfg r.1) = "T"%string /\
  collectionInterval (cfg r.1) = 120 /\ matches (cfg r.1) = ∅ /\ leagues (cfg r.1) = ∅.
Proof.
  apply (X_pregames_controller_restart (mkSvc c2_config (Some 5000) None) None "T");
    reflexivity.
Defined.

Lemma X_getMatchById_decimal_witness :
  getMatchById (matches c2_config) (Num.numberToString 1) = (mkReply 200 true, Some c2_match) /\
  getMatchById (matches c2_config) (Num.numberToString 2) = (mkReply 404 false, None).
Proof.
  split.
  - apply (X_getMatchById_decimal (matches c2_config) 1). lia.
  - apply (X_getMatchById_decimal (matches c2_config) 2). lia.
Defined.

Lemma X_stored_match_by_id_witness :
  getMatchById (matches (cfg (live_run [LiveStart 30 "S"; LiveCollect
      [mkLiveFeedSport 1 [mkLiveFeedRegion [mkLiveFeedCompetition
         [mkLiveTreeEvent true (mkEvent 100 "Liga" 0 true false [])]]]]])))
    (Num.numberToString (m_id (mkMatch 100 "Liga" "S" 0 false false ∅))) =
  (mkReply 200 true, Some (mkMatch 100 "Liga" "S" 0 false false ∅)).
Proof.
  apply (proj1 (X_stored_match_by_id [LiveStart 30 "S"; LiveCollect
      [mkLiveFeedSport 1 [mkLiveFeedRegion [mkLiveFeedCompetition
         [mkLiveTreeEvent true (mkEvent 100 "Liga" 0 true false [])]]]]] []) 100).
  - vm_compute. reflexivity.
  - lia.
Defined.

Lemma X_redis_number_fields_witness :
  fromHash (hashData {["id" := JNum 42]}) !! "id"%string = Some (JNum 42) /\
  fromHash (hashData {["id" := JNum 42]}) !! "leagueId"%string = Some (JNum 0).
Proof.
  split.
  - apply (proj1 (X_redis_number_fields {["id" := JNum 42]} "id" ltac:(left)) 42).
    + lia.
    + reflexivity.
  - apply (proj2 (X_redis_number_fields {["id" := JNum 42]} "leagueId"
      ltac:(apply list_elem_of_In; simpl; tauto))).
    reflexivity.
Defined.

Lemma X_redis_string_fields_witness :
  fromHash (hashData {["home" := JStr "A"]}) !! "home"%string = Some (JStr "A") /\
  fromHash (hashData {["home" := JStr "A"]}) !! "away"%string = Some (JStr "").
Proof.
  split.
  - apply (proj1 (X_redis_string_fields {["home" := JStr "A"]} "home" ltac:(left)) "A").
    reflexivity.
  - apply (proj2 (X_redis_string_fields {["home" := JStr "A"]} "away"
      ltac:(apply list_elem_of_In; simpl; tauto))).
    left. reflexivity.
Defined.

Lemma X_redis_boolean_fields_witness :
  fromHash (hashData {["isLive" := JBool true]}) !! "isLive"%string = Some (JBool true) /\
  fromHash (hashData {["isLive" := JBool true]}) !! "topMatch"%string = Some (JBool false).
Proof.
  split.
  - apply (proj1 (X_redis_boolean_fields {["isLive" := JBool true]} "isLive" ltac:(left)) true).
    reflexivity.
  - apply (proj2 (X_redis_boolean_fields {["isLive" := JBool true]} "topMatch"
      ltac:(apply list_elem_of_In; simpl; tauto))).
    reflexivity.
Defined.

Lemma X_redis_announcement_witness :
  js_truthy (default JUndefined
    (fromHash (hashData {["announcement" := JBool false]}) !! "announcement"%string)) = true.
Proof.
  apply (proj1 (X_redis_announcement {["announcement" := JBool false]}) false).
  reflexivity.
Defined.

Lemma X_fetchPages_prefix_witness :
  exists n, (n <= 100)%nat /\
    fetchPagesConcurrently (four_pages [1] [2] [4]) 100 3 =
      Some (concat (map (four_pages [1] [2] [4]) (seq 0 n)), seq 0 n) /\
    ((n < 100)%nat -> exists k, (k < n)%nat /\ four_pages [1] [2] [4] k = []).
Proof. apply (X_fetchPages_prefix (four_pages [1] [2] [4]) 100 3). lia. Defined.

Lemma X_saveMatches_idempotent_witness :
  saveMatches [c2_match] (mkRedis true false [1] {[1 := hash_of c2_match]}) =
    Some (mkRedis true false [1] {[1 := hash_of c2_match]}).
Proof.
  apply (X_saveMatches_idempotent [c2_match] (mkRedis true false [] ∅)). reflexivity.
Defined.

End Extra.
